(** * ermangizer-modbus: the Modbus RTU frame decoder of the Node-RED node

    A shallow embedding of the class [ModbusDecoder] of
    [src/ermangizer-modbus.ts] and the properties of its specification.

    Conventions of the embedding:
    - a [Buffer] is a list of bytes;
    - a JavaScript string received as input is its sequence of UTF-16 code
      units; strings the decoder produces are kept as text;
    - a JavaScript number is an exact rational, kept reduced; the only
      non-integral numbers of the decoder come out of [toFixed(3)] and are
      decimals with three fractional digits.  The product of a raw value
      and a scale is taken exactly: with the scales of the register table,
      0.1 and 0.01, and 16-bit raw values this gives the decimal the
      binary64 product is rounded to by [toFixed(3)], and the properties of
      scaled values are stated for these registers only;
    - a JavaScript object is its property list in insertion order;
    - a call either returns, throws, or (for the model of a loop that is
      not structural) runs out of fuel. *)

From Stdlib Require Import ZArith QArith Qround List String Ascii Bool Lia.
From Stdlib Require Import Strings.Byte DecimalString.

Set Warnings "-register-all".
Import ListNotations.

Local Open Scope string_scope.
Local Open Scope list_scope.
Local Open Scope Z_scope.

(** ** The JavaScript runtime the decoder relies on *)

Module Js.

(** [ToInt32]: every bit operator of JavaScript works on the 32-bit
    two's complement image of its operands. *)
Definition toInt32 (z : Z) : Z :=
  let m := z mod 2 ^ 32 in
  if m <? 2 ^ 31 then m else m - 2 ^ 32.

(** [a ^ b] *)
Definition bxor (a b : Z) : Z := toInt32 (Z.lxor (toInt32 a) (toInt32 b)).

(** [a & b] *)
Definition band (a b : Z) : Z := toInt32 (Z.land (toInt32 a) (toInt32 b)).

(** [a >> n], the sign-propagating shift; the count is taken modulo 32 *)
Definition shr (a n : Z) : Z := Z.shiftr (toInt32 a) (n mod 32).

(** Thrown values.  The decoder throws plain [Error]s told apart by their
    message; the buffer readers of the runtime throw a [RangeError] that
    reports the offending offset. *)
Inductive exn : Type :=
| Error (message : string)
| RangeError (offset : Z).

(** The completion of a call. *)
Inductive completion (A : Type) : Type :=
| Return (a : A)
| Throw (e : exn)
| OutOfFuel.
Arguments Return {A} a.
Arguments Throw {A} e.
Arguments OutOfFuel {A}.

Definition bind {A B : Type} (c : completion A) (k : A -> completion B)
  : completion B :=
  match c with
  | Return a => k a
  | Throw e => Throw e
  | OutOfFuel => OutOfFuel
  end.

(** Values that end up in a decode result. *)
Inductive value : Type :=
| Num (q : Q)
| Str (s : string)
| Bool (b : bool)
| Obj (props : list (string * value)).

Definition object : Type := list (string * value).

(** An integer as a number. *)
Definition Int (z : Z) : value := Num (inject_Z z).

(** [o[k]], [None] standing for [undefined] *)
Fixpoint get (o : object) (k : string) : option value :=
  match o with
  | [] => None
  | (k', v) :: o' => if String.eqb k' k then Some v else get o' k
  end.

(** [o[k] = v]: an existing property keeps its place, a new one goes last *)
Fixpoint set (o : object) (k : string) (v : value) : object :=
  match o with
  | [] => [(k, v)]
  | (k', v') :: o' =>
      if String.eqb k' k then (k', v) :: o' else (k', v') :: set o' k v
  end.

(** An object literal [{ k1: v1, ..., kn: vn }], spread properties included:
    the properties are defined from left to right. *)
Definition literal (props : list (string * value)) : object :=
  fold_left (fun o kv => set o (fst kv) (snd kv)) props [].

(** [...v] inside an object literal *)
Definition spread (v : value) : list (string * value) :=
  match v with
  | Obj props => props
  | _ => []
  end.

Definition keys (o : object) : list string := map fst o.

(** A lookup table [{ n1: s1, ... }] indexed by a number. *)
Definition table : Type := list (Z * string).

Fixpoint lookup {A : Type} (t : list (Z * A)) (k : Z) : option A :=
  match t with
  | [] => None
  | (k', a) :: t' => if k' =? k then Some a else lookup t' k
  end.

(** [t[k] || d] on strings: the empty string and [undefined] are falsy *)
Definition or_else (o : option string) (d : string) : string :=
  match o with
  | Some EmptyString => d
  | Some s => s
  | None => d
  end.

(** [String(n)] for an integer *)
Definition decimal (z : Z) : string :=
  match z with
  | Z0 => "0"
  | Zpos p => DecimalString.NilEmpty.string_of_uint (Pos.to_uint p)
  | Zneg p => "-" ++ DecimalString.NilEmpty.string_of_uint (Pos.to_uint p)
  end.

Definition hexDigit (upper : bool) (d : Z) : ascii :=
  if d <? 10 then ascii_of_N (Z.to_N (48 + d))
  else ascii_of_N (Z.to_N ((if upper then 55 else 87) + d)).

(** The hexadecimal digits of a positive number, most significant first. *)
Fixpoint hexPos (p : positive) (fuel : nat) (acc : string) : string :=
  match fuel with
  | O => acc
  | S fuel' =>
      let acc' := String (hexDigit false (Zpos p mod 16)) acc in
      match Zpos p / 16 with
      | Zpos q => hexPos q fuel' acc'
      | _ => acc'
      end
  end.

(** [n.toString(16)] for a non-negative integer *)
Definition toString16 (z : Z) : string :=
  match z with
  | Zpos p => hexPos p (Pos.size_nat p) EmptyString
  | _ => "0"
  end.

(** [s.padStart(n, '0')] *)
Fixpoint zeros (n : nat) : string :=
  match n with
  | O => EmptyString
  | S n' => String "0" (zeros n')
  end.

Definition padStart0 (s : string) (n : nat) : string :=
  (zeros (n - String.length s) ++ s)%string.

(** [x.toFixed(3)] read back with [Number]: the nearest multiple of
    1/1000, a tie going away from zero. *)
Definition roundHalfUp3 (x : Q) : Q :=
  (Qfloor (x * 1000 + (1 # 2)) # 1000)%Q.

Definition toFixed3 (x : Q) : Q :=
  Qred (if Qle_bool 0 x then roundHalfUp3 x else Qopp (roundHalfUp3 (Qopp x))).

(** The UTF-16 code units of a text of ASCII characters. *)
Definition codeUnits (s : string) : list N :=
  map N_of_ascii (list_ascii_of_string s).

(** Whether a number is truthy. *)
Definition truthy (x : Q) : bool := negb (Qeq_bool x 0).

End Js.

Notation "x <- c ;; k" := (Js.bind c (fun x => k))
  (at level 61, c at next level, right associativity).

(** ** The part of Node's [Buffer] the decoder uses *)

Module NodeBuffer.

Definition Buffer : Type := list byte.

Definition byteZ (b : byte) : Z := Z.of_N (Byte.to_N b).

(** The byte a number is stored as in a [Uint8Array]: its value modulo 256. *)
Definition toByte (z : Z) : byte :=
  match Byte.of_N (Z.to_N (z mod 256)) with
  | Some b => b
  | None => x00
  end.

Definition len (b : Buffer) : Z := Z.of_nat (List.length b).

(** [Buffer.from(array)] for an array of integers *)
Definition fromArray (a : list Z) : Buffer := map toByte a.

(** The value of a hexadecimal digit given as a UTF-16 code unit. *)
Definition unhex (c : N) : option Z :=
  if ((48 <=? c) && (c <=? 57))%N then Some (Z.of_N c - 48)
  else if ((65 <=? c) && (c <=? 70))%N then Some (Z.of_N c - 55)
  else if ((97 <=? c) && (c <=? 102))%N then Some (Z.of_N c - 87)
  else None.

(** The low byte of a code unit: the hexadecimal decoder of the runtime
    looks at nothing else of it. *)
Definition lowByte (c : N) : N := (c mod 256)%N.

(** [Buffer.from(s, 'hex')]: one byte per pair of digits, every code unit
    being read by its low byte; decoding stops at the first pair that is
    not two hexadecimal digits, and a trailing single character is
    dropped. *)
Fixpoint fromHex (s : list N) : Buffer :=
  match s with
  | c1 :: c2 :: s' =>
      match unhex (lowByte c1), unhex (lowByte c2) with
      | Some h, Some l => toByte (h * 16 + l) :: fromHex s'
      | _, _ => []
      end
  | _ => []
  end.

(** [b.slice(start, end)]: a negative index counts from the end, and both
    are clamped to the buffer. *)
Definition clampIndex (n i : Z) : Z :=
  if i <? 0 then Z.max 0 (n + i) else Z.min i n.

Definition slice (b : Buffer) (start stop : Z) : Buffer :=
  let s := clampIndex (len b) start in
  let e := clampIndex (len b) stop in
  firstn (Z.to_nat (e - s)) (skipn (Z.to_nat s) b).

(** [b[i]], [None] standing for [undefined] *)
Definition at_ (b : Buffer) (i : Z) : option Z :=
  if i <? 0 then None else option_map byteZ (nth_error b (Z.to_nat i)).

(** [b.readUInt16BE(offset)] and [b.readUInt16LE(offset)]: both bytes must
    lie inside the buffer. *)
Definition readUInt16BE (b : Buffer) (offset : Z) : Js.completion Z :=
  match at_ b offset, at_ b (offset + 1) with
  | Some first, Some last => Js.Return (first * 2 ^ 8 + last)
  | _, _ => Js.Throw (Js.RangeError offset)
  end.

Definition readUInt16LE (b : Buffer) (offset : Z) : Js.completion Z :=
  match at_ b offset, at_ b (offset + 1) with
  | Some first, Some last => Js.Return (first + last * 2 ^ 8)
  | _, _ => Js.Throw (Js.RangeError offset)
  end.

Definition hexByte (upper : bool) (b : byte) : string :=
  String (Js.hexDigit upper (byteZ b / 16))
    (String (Js.hexDigit upper (byteZ b mod 16)) EmptyString).

(** [b.toString('hex').toUpperCase()] *)
Definition toHexUpper (b : Buffer) : string :=
  String.concat EmptyString (map (hexByte true) b).

End NodeBuffer.

(** ** The decoder *)

Module ModbusDecoder.
Import Js NodeBuffer.

Record ModbusRegister : Type := mkRegister {
  address : Z;
  name : string;
  unit : string;
  description : string;
  readOnly : bool;
  scale : option Q
}.

Definition MODBUS_REGISTERS : list (Z * ModbusRegister) :=
  [ (0x0001, mkRegister 0x0001 "output_frequency" "0.1 Hz" "Current output frequency value" true (Some (1 # 10)%Q));
    (0x0002, mkRegister 0x0002 "output_current" "0.1 A" "Current output current value" true (Some (1 # 10)%Q));
    (0x0003, mkRegister 0x0003 "input_voltage" "V" "Current input voltage value" true None);
    (0x0004, mkRegister 0x0004 "temperature" "°C" "Current temperature display" true None);
    (0x0005, mkRegister 0x0005 "pressure" "0.01 bar" "Actual pressure value" true (Some (1 # 100)%Q));
    (0x0006, mkRegister 0x0006 "error_code" "" "Error code" true None);
    (0x0007, mkRegister 0x0007 "status_code" "" "Status code" true None);
    (0x0010, mkRegister 0x0010 "factory_reset" "" "Restore factory settings" false None);
    (0x0011, mkRegister 0x0011 "initial_pressure_diff" "0.01 bar" "Initial pressure difference" false (Some (1 # 100)%Q));
    (0x0012, mkRegister 0x0012 "water_shortage_pressure" "0.01 bar" "Pressure value during water shortage" false (Some (1 # 100)%Q));
    (0x0013, mkRegister 0x0013 "water_shortage_time" "s" "Water shortage time" false None);
    (0x0014, mkRegister 0x0014 "carrier_frequency" "" "Carrier frequency" false None);
    (0x0015, mkRegister 0x0015 "accel_decel_time" "0.1 ms" "Acceleration and deceleration time" false (Some (1 # 10)%Q));
    (0x0016, mkRegister 0x0016 "pressure_tolerance" "0.01 bar" "Allowable pressure error" false (Some (1 # 100)%Q));
    (0x0017, mkRegister 0x0017 "min_shutdown_freq" "0.1 Hz" "Minimum shutdown frequency" false (Some (1 # 10)%Q));
    (0x0018, mkRegister 0x0018 "continuous_operation" "" "Enable continuous operation" false None);
    (0x0019, mkRegister 0x0019 "measurement_range" "bar" "Measurement range selection" false None);
    (0x0020, mkRegister 0x0020 "overheat_setting" "°C" "Overheat setting" false None);
    (0x0021, mkRegister 0x0021 "direction_setting" "" "Set direction" false None);
    (0x0022, mkRegister 0x0022 "local_address" "" "Local address" false None);
    (0x1000, mkRegister 0x1000 "set_pressure" "0.01 BAR" "Set pressure value" false (Some (1 # 100)%Q));
    (0x1001, mkRegister 0x1001 "status_command" "" "Command status code" false None) ].

Definition ERROR_CODES : table :=
  [ (0, "No error");
    (1, "Equipment overcurrent, short circuit");
    (2, "Overload");
    (3, "Low pressure (no pressure sensor)");
    (4, "Overpressure");
    (5, "Low pressure");
    (6, "Overpressure");
    (7, "Phase loss (power phase loss)");
    (8, "Overheating");
    (9, "Insufficient power");
    (10, "Software current overload");
    (11, "Communication failure");
    (12, "Default");
    (13, "Motor locked");
    (14, "Motor phase loss");
    (15, "Motor overspeed");
    (16, "Memory failure (FLASH failure)") ].

(** What [decodeModbusMessage] can be handed: the three accepted encodings
    and everything else. *)
Inductive input : Type :=
| InBuffer (b : Buffer)
| InString (s : list N)
| InArray (a : list Z)
| InOther.

(** The code units [/\s/] matches. *)
Definition isSpace (c : N) : bool :=
  ((9 <=? c) && (c <=? 13) || (c =? 32) || (c =? 160) || (c =? 0x1680)
   || (0x2000 <=? c) && (c <=? 0x200a) || (c =? 0x2028) || (c =? 0x2029)
   || (c =? 0x202f) || (c =? 0x205f) || (c =? 0x3000) || (c =? 0xfeff))%N.

(** [s.replace(/\s/g, '')] *)
Definition stripSpaces (s : list N) : list N :=
  filter (fun c => negb (isSpace c)) s.

Definition inputToBuffer (i : input) : completion Buffer :=
  match i with
  | InBuffer b => Return b
  | InString s =>
      let hexString := stripSpaces s in
      if negb (Z.of_nat (List.length hexString) mod 2 =? 0)
      then Throw (Error "Invalid hex string length")
      else Return (fromHex hexString)
  | InArray a => Return (fromArray a)
  | InOther =>
      Throw (Error "Unsupported input type. Expected Buffer, hex string or number array.")
  end.

(** The inner loop of [calculateCRC16]: [j] rounds of shift and
    conditional xor. *)
Fixpoint crcRounds (j : nat) (crc : Z) : Z :=
  match j with
  | O => crc
  | S j' =>
      crcRounds j'
        (if negb (band crc 0x0001 =? 0)
         then bxor (shr crc 1) 0xA001
         else shr crc 1)
  end.

(** The body of the outer loop: one byte taken into the accumulator. *)
Definition crcUpdate (crc : Z) (b : byte) : Z :=
  crcRounds 8 (bxor crc (byteZ b)).

Definition calculateCRC16 (data : Buffer) : Z :=
  fold_left crcUpdate data 0xFFFF.

Definition verifyCRC (data : Buffer) : completion bool :=
  if len data <? 2 then Return false
  else
    let messageWithoutCRC := slice data 0 (-2) in
    receivedCRC <- readUInt16LE data (len data - 2) ;;
    let calculatedCRC := calculateCRC16 messageWithoutCRC in
    Return (receivedCRC =? calculatedCRC).

Definition decodeStatusRegister (status : Z) : value :=
  Obj (literal
    [ ("water_shortage", Bool (negb (band status 0x0001 =? 0)));
      ("running", Bool (negb (band status 0x0002 =? 0)));
      ("raw_value", Int status) ]).

Definition statusMap : table :=
  [ (0x00, "invalid"); (0x01, "running"); (0x04, "stop");
    (0x11, "error reset") ].

Definition rangeMap : table :=
  [ (6, "6 bar"); (10, "10 bar"); (16, "16 bar"); (25, "25 bar") ].

(** [decodeRegisterValue].  The scaled value is computed in exact
    arithmetic, which stands for the arithmetic of the code on the
    descriptors of [MODBUS_REGISTERS] and 16-bit raw values. *)
Definition decodeRegisterValue (register : ModbusRegister) (rawValue : Z)
  : value :=
  let value :=
    match scale register with
    | Some s =>
        if truthy s then toFixed3 (inject_Z rawValue * s)
        else inject_Z rawValue
    | None => inject_Z rawValue
    end in
  if address register =? 0x0006 then
    Obj (literal
      [ ("code", Int rawValue);
        ("description", Str (or_else (lookup ERROR_CODES rawValue) "Unknown error"));
        ("raw_value", Int rawValue) ])
  else if address register =? 0x0007 then
    decodeStatusRegister rawValue
  else if address register =? 0x0014 then
    Obj (literal
      [ ("value", Str (if rawValue =? 72 then "H" else "L"));
        ("code", Int rawValue);
        ("raw_value", Int rawValue) ])
  else if address register =? 0x1001 then
    Obj (literal
      [ ("code", Int rawValue);
        ("description", Str (or_else (lookup statusMap rawValue) "Unknown status"));
        ("raw_value", Int rawValue) ])
  else if address register =? 0x0019 then
    Obj (literal
      [ ("value", Str (or_else (lookup rangeMap rawValue)
                         ("Unknown (" ++ decimal rawValue ++ ")")));
        ("code", Int rawValue);
        ("raw_value", Int rawValue) ])
  else
    Obj (literal [ ("value", Num value); ("raw_value", Int rawValue) ]).

Definition functions : table :=
  [ (3, "Read Holding Registers"); (6, "Write Single Register");
    (131, "Error Response") ].

Definition getFunctionName (code : Z) : string :=
  or_else (lookup functions code) ("Unknown (" ++ decimal code ++ ")").

Definition errorDescriptions : table :=
  [ (1, "Illegal Function"); (2, "Illegal Data Address");
    (3, "Illegal Data Value"); (4, "Server Device Failure") ].

(** One round of the loop over the registers of a read response: the
    property assigned to [result.registers]. *)
Definition readEntry (registerAddress registerValue : Z) : string * value :=
  match lookup MODBUS_REGISTERS registerAddress with
  | Some register =>
      let decodedValue := decodeRegisterValue register registerValue in
      (name register,
       Obj (literal
         (spread decodedValue ++
          [ ("unit", Str (unit register));
            ("description", Str (description register));
            ("address", Int (address register));
            ("read_only", Bool (readOnly register)) ])))
  | None =>
      (("unknown_0x" ++ padStart0 (toString16 registerAddress) 4)%string,
       Obj (literal
         [ ("value", Int registerValue);
           ("raw_value", Int registerValue);
           ("unit", Str "unknown");
           ("description", Str "Unknown register");
           ("address", Int registerAddress) ]))
  end.

(** [for (let i = 0; i < registerCount; i++) { ... }], started at [i] with
    [result.registers] equal to [registers]. *)
Fixpoint readLoop (fuel : nat) (buffer : Buffer) (registerCount : Q)
  (i : Z) (registers : object) : completion object :=
  match fuel with
  | O => OutOfFuel
  | S fuel' =>
      if negb (Qle_bool registerCount (inject_Z i)) then
        registerValue <- readUInt16BE buffer (3 + i * 2) ;;
        let registerAddress := 0x0001 + i in
        let entry := readEntry registerAddress registerValue in
        readLoop fuel' buffer registerCount (i + 1)
          (set registers (fst entry) (snd entry))
      else Return registers
  end.

(** The registers of a write acknowledgment. *)
Definition writeEntry (registers : object) (registerAddress registerValue : Z)
  : object :=
  match lookup MODBUS_REGISTERS registerAddress with
  | Some register =>
      let decodedValue := decodeRegisterValue register registerValue in
      set registers (name register)
        (Obj (literal
          (spread decodedValue ++
           [ ("unit", Str (unit register));
             ("description", Str (description register));
             ("address", Int registerAddress);
             ("read_only", Bool (readOnly register));
             ("operation", Str "write") ])))
  | None => registers
  end.

(** [decodeModbusMessage], [now] being what [new Date().toISOString()]
    gives at the call. *)
Definition decodeModbusMessage (now : string) (i : input) : completion value :=
  buffer <- inputToBuffer i ;;
  match buffer with
  | b0 :: b1 :: b2 :: _ :: _ =>
      ok <- verifyCRC buffer ;;
      if negb ok then Throw (Error "CRC check failed")
      else
        let slaveAddress := byteZ b0 in
        let functionCode := byteZ b1 in
        let result : object :=
          literal
            [ ("slave_address", Int slaveAddress);
              ("function_code", Int functionCode);
              ("function_name", Str (getFunctionName functionCode));
              ("raw_data", Str (toHexUpper buffer));
              ("timestamp", Str now);
              ("registers", Obj []) ] in
        if functionCode =? 0x03 then
          let byteCount := byteZ b2 in
          let registerCount := (inject_Z byteCount / 2)%Q in
          registers <- readLoop (S (Z.to_nat byteCount)) buffer registerCount 0 [] ;;
          Return (Obj (set result "registers" (Obj registers)))
        else if functionCode =? 0x06 then
          registerAddress <- readUInt16BE buffer 2 ;;
          registerValue <- readUInt16BE buffer 4 ;;
          Return (Obj (set result "registers"
                         (Obj (writeEntry [] registerAddress registerValue))))
        else if functionCode =? 0x83 then
          let errorCode := byteZ b2 in
          Return (Obj (set result "error"
            (Obj (literal
              [ ("code", Int errorCode);
                ("description",
                 Str ("Modbus Error: " ++
                      or_else (lookup errorDescriptions errorCode) "Unknown error"));
                ("modbus_error", Bool true) ]))))
        else Return (Obj result)
  | _ => Throw (Error "Message too short")
  end.

End ModbusDecoder.

(** ** The specification's reading of the decoder *)

Module Spec.
Import Js NodeBuffer ModbusDecoder.

(** One shift of the CRC accumulator: the low bit decides whether the
    polynomial [0xA001] is folded in. *)
Definition crcShift (acc : Z) : Z :=
  if Z.testbit acc 0 then Z.lxor (Z.shiftr acc 1) 0xA001 else Z.shiftr acc 1.

Definition crcByte (acc : Z) (b : byte) : Z :=
  Nat.iter 8 crcShift (Z.lxor acc (byteZ b)).

(** Modbus CRC-16 of a byte sequence. *)
Definition crc16 (bytes : list byte) : Z := fold_left crcByte bytes 0xFFFF.

(** A frame without its last two bytes, and its last two bytes read as a
    16-bit little-endian integer. *)
Definition body (frame : list byte) : list byte :=
  removelast (removelast frame).

Definition received (frame : list byte) : Z :=
  byteZ (last (removelast frame) x00) + 256 * byteZ (last frame x00).

(** A checksum as the two bytes that end a frame. *)
Definition crcBytes (crc : Z) : list byte :=
  [toByte (Z.land crc 0xFF); toByte (Z.shiftr crc 8)].

(** The three failures of the specification, and the one a thrown value
    stands for: the decoder tells them apart by message only. *)
Inductive failure : Type :=
| InputFormatError
| FrameTooShortError
| ChecksumError.

Definition failureOf (e : exn) : option failure :=
  match e with
  | Error m =>
      if String.eqb m "Invalid hex string length" then Some InputFormatError
      else if String.eqb m
                "Unsupported input type. Expected Buffer, hex string or number array."
      then Some InputFormatError
      else if String.eqb m "Message too short" then Some FrameTooShortError
      else if String.eqb m "CRC check failed" then Some ChecksumError
      else None
  | RangeError _ => None
  end.

(** Inputs the normalizer rejects: an unsupported type, or a text whose
    length is odd once the white space is gone. *)
Definition rejected (i : input) : bool :=
  match i with
  | InOther => true
  | InString s => Nat.odd (List.length (stripSpaces s))
  | InBuffer _ | InArray _ => false
  end.

(** The failure the specification expects of an input, if any. *)
Definition expectedFailure (i : input) : option failure :=
  if rejected i then Some InputFormatError
  else
    match inputToBuffer i with
    | Return buffer =>
        if len buffer <? 4 then Some FrameTooShortError
        else if crc16 (body buffer) =? received buffer then None
        else Some ChecksumError
    | _ => None
    end.

(** The decode result: the fields of the frame in the order the decoder
    defines them. *)
Definition frame (now : string) (slave code : Z) (raw : string)
  (registers : object) (error : option value) : value :=
  Obj ([ ("slave_address", Int slave);
         ("function_code", Int code);
         ("function_name", Str (getFunctionName code));
         ("raw_data", Str raw);
         ("timestamp", Str now);
         ("registers", Obj registers) ]
       ++ match error with
          | Some e => [("error", e)]
          | None => []
          end).

(** A fully-formed result for a frame: its address, function code and
    name, its bytes in hexadecimal, with some registers and maybe an
    error. *)
Definition fullyFormed (now : string) (buffer : Buffer) (v : value) : Prop :=
  exists registers error,
    v = frame now (byteZ (nth 0 buffer x00)) (byteZ (nth 1 buffer x00))
          (toHexUpper buffer) registers error.

(** The fields the specification gives the result of the core decode
    call. *)
Definition coreFields : list string :=
  [ "slave_address"; "function_code"; "function_name"; "raw_data";
    "registers"; "error" ].

(** The fields the decoder defines on every result. *)
Definition frameFields : list string :=
  [ "slave_address"; "function_code"; "function_name"; "raw_data";
    "timestamp"; "registers" ].

(** How many registers a read response of [byteCount] bytes is walked
    for: the integers [i >= 0] below [byteCount / 2]. *)
Definition registerCount (byteCount : Z) : Z := (byteCount + 1) / 2.

(** Whether every 16-bit read of the dispatch stays inside the frame. *)
Definition readsInBounds (buffer : Buffer) : Prop :=
  match buffer with
  | _ :: b1 :: b2 :: _ =>
      (byteZ b1 = 3 -> 3 + 2 * registerCount (byteZ b2) <= len buffer)
      /\ (byteZ b1 = 6 -> 6 <= len buffer)
  | _ => True
  end.

(** The error table as the list of its seventeen texts. *)
Definition errorTexts : list string :=
  [ "No error"; "Equipment overcurrent, short circuit"; "Overload";
    "Low pressure (no pressure sensor)"; "Overpressure"; "Low pressure";
    "Overpressure"; "Phase loss (power phase loss)"; "Overheating";
    "Insufficient power"; "Software current overload";
    "Communication failure"; "Default"; "Motor locked"; "Motor phase loss";
    "Motor overspeed"; "Memory failure (FLASH failure)" ].

Definition errorText (raw : Z) : string :=
  nth (Z.to_nat raw) errorTexts "Unknown error".

Definition statusText (raw : Z) : string :=
  match raw with
  | 0 => "invalid"
  | 1 => "running"
  | 4 => "stop"
  | 17 => "error reset"
  | _ => "Unknown status"
  end.

Definition rangeText (raw : Z) : string :=
  match raw with
  | 6 => "6 bar"
  | 10 => "10 bar"
  | 16 => "16 bar"
  | 25 => "25 bar"
  | _ => "Unknown (" ++ decimal raw ++ ")"
  end.

(** A non-negative number rounded to three decimal places. *)
Definition round3 (x : Q) : Q := Qred (Qfloor (x * 1000 + (1 # 2)) # 1000).

(** The decoded value of a register: the five overrides by address, then
    the generic rule. *)
Definition decodedRegister (register : ModbusRegister) (raw : Z) : value :=
  match address register with
  | 0x0006 =>
      Obj [ ("code", Int raw); ("description", Str (errorText raw));
            ("raw_value", Int raw) ]
  | 0x0007 =>
      Obj [ ("water_shortage", Bool (Z.testbit raw 0));
            ("running", Bool (Z.testbit raw 1));
            ("raw_value", Int raw) ]
  | 0x0014 =>
      Obj [ ("value", Str (if raw =? 72 then "H" else "L"));
            ("code", Int raw); ("raw_value", Int raw) ]
  | 0x1001 =>
      Obj [ ("code", Int raw); ("description", Str (statusText raw));
            ("raw_value", Int raw) ]
  | 0x0019 =>
      Obj [ ("value", Str (rangeText raw));
            ("code", Int raw); ("raw_value", Int raw) ]
  | _ =>
      Obj [ ("value",
             Num (match scale register with
                  | Some s => round3 (inject_Z raw * s)
                  | None => inject_Z raw
                  end));
            ("raw_value", Int raw) ]
  end.

(** The text of a Modbus exception code. *)
Definition exceptionText (code : Z) : string :=
  match code with
  | 1 => "Illegal Function"
  | 2 => "Illegal Data Address"
  | 3 => "Illegal Data Value"
  | 4 => "Server Device Failure"
  | _ => "Unknown error"
  end.

(** The [error] field of an exception response. *)
Definition exceptionError (code : Z) : value :=
  Obj [ ("code", Int code);
        ("description", Str ("Modbus Error: " ++ exceptionText code));
        ("modbus_error", Bool true) ].

(** The 16-bit big-endian integer at an offset of a frame, zero standing
    for a byte that is missing. *)
Definition be16 (buffer : Buffer) (offset : nat) : Z :=
  256 * byteZ (nth offset buffer x00) + byteZ (nth (S offset) buffer x00).

(** The key of the [i]-th register of a read response, and the registers
    map of a read response that holds [n] registers. *)
Definition registerKey (i : nat) : string :=
  fst (readEntry (0x0001 + Z.of_nat i) 0).

Definition registerEntries (buffer : Buffer) (n : nat) : object :=
  map (fun i => readEntry (0x0001 + Z.of_nat i) (be16 buffer (3 + 2 * i)))
    (seq 0 n).

(** Whether the texts of a list are pairwise different. *)
Fixpoint distinctb (l : list string) : bool :=
  match l with
  | [] => true
  | x :: l' => negb (existsb (String.eqb x) l') && distinctb l'
  end.

End Spec.

(** ** The Node-RED node around the decoder *)

Module ErmangizerModbusNode.
Import Js NodeBuffer ModbusDecoder.

(** The settings the node keeps between messages. *)
Record node : Type := mkNode {
  inputType : string;
  outputFormat : string
}.

(** The constructor: [config.inputType || 'auto'] and
    [config.outputFormat || 'detailed']. *)
Definition createNode (configInputType configOutputFormat : option string)
  : node :=
  mkNode (or_else configInputType "auto")
         (or_else configOutputFormat "detailed").

(** [/^[0-9a-fA-F\s]+$/.test(s)] *)
Definition isHexText (s : list N) : bool :=
  match s with
  | [] => false
  | _ :: _ =>
      forallb (fun c => match unhex c with
                        | Some _ => true
                        | None => isSpace c
                        end) s
  end.

(** The detection of the input type, done while the setting is ['auto'];
    what it finds is stored in the node. *)
Definition autoDetect (n : node) (inputData : input) : node :=
  if String.eqb (inputType n) "auto" then
    match inputData with
    | InBuffer _ => mkNode "buffer" (outputFormat n)
    | InString s =>
        if isHexText s then mkNode "hexstring" (outputFormat n) else n
    | InArray _ => mkNode "array" (outputFormat n)
    | InOther => n
    end
  else n.

(** Whether a value is truthy. *)
Definition truthyValue (v : value) : bool :=
  match v with
  | Num q => truthy q
  | Str s => negb (String.eqb s "")
  | Bool b => b
  | Obj _ => true
  end.

(** [reg.value !== undefined ? reg.value : reg] *)
Definition project (reg : value) : value :=
  match get (spread reg) "value" with
  | Some v => v
  | None => reg
  end.

(** The simplified output.  [None] stands for a decode result without one of
    the fields read here, which the decoder never returns. *)
Definition simplify (decodedData : value) : option value :=
  match decodedData with
  | Obj d =>
      match get d "slave_address", get d "function_name",
            get d "timestamp", get d "registers" with
      | Some slave, Some function, Some timestamp, Some (Obj registers) =>
          let simplified :=
            literal [ ("slave", slave); ("function", function);
                      ("timestamp", timestamp) ] in
          let simplified :=
            fold_left
              (fun simplified key =>
                 match get registers key with
                 | Some reg => set simplified key (project reg)
                 | None => simplified
                 end)
              (keys registers) simplified in
          Some (Obj match get d "error" with
                    | Some error =>
                        if truthyValue error then set simplified "error" error
                        else simplified
                    | None => simplified
                    end)
      | _, _, _, _ => None
      end
  | _ => None
  end.

(** What the handler leaves in [msg.payload]: the output of a decode, or the
    report of a failure.  The field [error] of the report is the message of
    the thrown value, which stands for it here. *)
Inductive payload : Type :=
| Decoded (v : value)
| Failed (error : exn) (input_type : string) (original_data : input).

(** The message sent on, by the fields the handler sets. *)
Record message : Type := mkMessage {
  msgPayload : payload;
  originalPayload : option input;
  msgError : option exn
}.

(** What one call of the handler does. *)
Inductive event : Type :=
| Send (msg : message)
| Done (err : option exn).

(** The handler of ['input'] on a message whose payload is [inputData]: the
    node afterwards and the calls of [send] and [done], in their order.
    [None] stands for a call that does not end in the model. *)
Definition onInput (now : string) (n : node) (inputData : input)
  : option (node * list event) :=
  let n' := autoDetect n inputData in
  match decodeModbusMessage now inputData with
  | Return decodedData =>
      if String.eqb (outputFormat n') "simplified" then
        match simplify decodedData with
        | Some simplified =>
            Some (n', [ Send (mkMessage (Decoded simplified) (Some inputData) None);
                        Done None ])
        | None => None
        end
      else
        Some (n', [ Send (mkMessage (Decoded decodedData) (Some inputData) None);
                    Done None ])
  | Throw error =>
      Some (n', [ Send (mkMessage (Failed error (inputType n') inputData)
                          None (Some error));
                  Done (Some error) ])
  | OutOfFuel => None
  end.

(** The node after a sequence of messages, each with the time it is handled
    at. *)
Fixpoint after (n : node) (msgs : list (string * input)) : option node :=
  match msgs with
  | [] => Some n
  | (now, inputData) :: msgs' =>
      match onInput now n inputData with
      | Some (n', _) => after n' msgs'
      | None => None
      end
  end.

End ErmangizerModbusNode.

(** ** Notions the properties of the code are stated with *)

Module Props.
Import Js NodeBuffer ModbusDecoder.

(** The text of a buffer in hexadecimal digits, as code units. *)
Definition hexUnits (upper : bool) (b : Buffer) : list N :=
  flat_map (fun x => [ N_of_ascii (hexDigit upper (byteZ x / 16));
                       N_of_ascii (hexDigit upper (byteZ x mod 16)) ]) b.

(** A text of hexadecimal digits, of either case, that spells a buffer: two
    digits for every byte. *)
Inductive spells : list N -> Buffer -> Prop :=
| spells_nil : spells [] []
| spells_cons (c1 c2 : N) (s : list N) (x : byte) (b : Buffer) :
    unhex c1 = Some (byteZ x / 16) ->
    unhex c2 = Some (byteZ x mod 16) ->
    spells s b ->
    spells (c1 :: c2 :: s) (x :: b).

(** The type the detection gives an input, if any. *)
Definition detected (inputData : input) : option string :=
  match inputData with
  | InBuffer _ => Some "buffer"
  | InString s =>
      if ErmangizerModbusNode.isHexText s then Some "hexstring" else None
  | InArray _ => Some "array"
  | InOther => None
  end.

(** The entry of a register in the simplified output. *)
Definition simplifiedEntry (kv : string * value) : string * value :=
  (fst kv, ErmangizerModbusNode.project (snd kv)).

(** The addresses whose decoded value has no field [value]. *)
Definition keptWhole (registerAddress : Z) : bool :=
  (registerAddress =? 0x0006) || (registerAddress =? 0x0007)
  || (registerAddress =? 0x1001).

End Props.

(** ** Facts about the runtime operations *)

Section BitFacts.

Lemma toInt32_small (z : Z) : 0 <= z < 2 ^ 31 -> Js.toInt32 z = z.
Proof.
  intros H. unfold Js.toInt32.
  rewrite Z.mod_small by lia.
  destruct (z <? 2 ^ 31) eqn:E; [reflexivity | apply Z.ltb_ge in E; lia].
Qed.

Lemma lxor_below (n a b : Z) :
  0 < n -> 0 <= a < 2 ^ n -> 0 <= b < 2 ^ n -> 0 <= Z.lxor a b < 2 ^ n.
Proof.
  intros Hn Ha Hb.
  assert (Hx : 0 <= Z.lxor a b) by (apply Z.lxor_nonneg; lia).
  split; [exact Hx |].
  destruct (Z.eq_dec (Z.lxor a b) 0) as [-> | Hne].
  - apply Z.pow_pos_nonneg; lia.
  - apply Z.log2_lt_pow2; [lia |].
    eapply Z.le_lt_trans; [apply Z.log2_lxor; lia |].
    apply Z.max_lub_lt.
    + destruct (Z.eq_dec a 0) as [-> | ?]; [simpl; lia |].
      apply Z.log2_lt_pow2; lia.
    + destruct (Z.eq_dec b 0) as [-> | ?]; [simpl; lia |].
      apply Z.log2_lt_pow2; lia.
Qed.

Lemma bxor_u16 (a b : Z) :
  0 <= a < 2 ^ 16 -> 0 <= b < 2 ^ 16 -> Js.bxor a b = Z.lxor a b.
Proof.
  intros Ha Hb. unfold Js.bxor.
  rewrite (toInt32_small a), (toInt32_small b) by lia.
  apply toInt32_small.
  pose proof (lxor_below 16 a b ltac:(lia) Ha Hb). lia.
Qed.

Lemma band_low_bit (a : Z) :
  0 <= a < 2 ^ 16 -> (Js.band a 1 =? 0) = negb (Z.testbit a 0).
Proof.
  intros Ha. unfold Js.band.
  rewrite (toInt32_small a), (toInt32_small 1) by lia.
  change 1 with (Z.ones 1) at 1. rewrite Z.land_ones by lia.
  rewrite toInt32_small
    by (pose proof (Z.mod_pos_bound a (2 ^ 1) ltac:(lia)); lia).
  rewrite Z.bit0_odd, Zodd_mod. change (2 ^ 1) with 2.
  destruct (Z.eqb_spec (a mod 2) 1) as [-> | Hne]; [reflexivity |].
  pose proof (Z.mod_pos_bound a 2 ltac:(lia)).
  replace (a mod 2) with 0 by lia. reflexivity.
Qed.

Lemma shr_one (a : Z) : 0 <= a < 2 ^ 16 -> Js.shr a 1 = Z.shiftr a 1.
Proof.
  intros Ha. unfold Js.shr. rewrite toInt32_small by lia. reflexivity.
Qed.

Lemma shiftr_one_below (a : Z) :
  0 <= a < 2 ^ 16 -> 0 <= Z.shiftr a 1 < 2 ^ 15.
Proof.
  intros Ha. rewrite Z.shiftr_div_pow2 by lia. change (2 ^ 1) with 2.
  split; [apply Z.div_pos; lia | apply Z.div_lt_upper_bound; lia].
Qed.

End BitFacts.

Section CrcFacts.
Import Js NodeBuffer ModbusDecoder.

Lemma byteZ_range (b : byte) : 0 <= byteZ b < 256.
Proof.
  unfold byteZ. pose proof (Byte.to_N_bounded b) as H. lia.
Qed.

Lemma crcShift_below (acc : Z) :
  0 <= acc < 2 ^ 16 -> 0 <= Spec.crcShift acc < 2 ^ 16.
Proof.
  intros H. unfold Spec.crcShift.
  pose proof (shiftr_one_below acc H).
  destruct (Z.testbit acc 0).
  - apply lxor_below; lia.
  - lia.
Qed.

Lemma iter_crcShift_below (n : nat) (acc : Z) :
  0 <= acc < 2 ^ 16 -> 0 <= Nat.iter n Spec.crcShift acc < 2 ^ 16.
Proof.
  intros H. induction n as [| n IH]; simpl; [exact H |].
  apply crcShift_below, IH.
Qed.

(** The rounds of the code, with their 32-bit operators, are the shifts
    of the specification as long as the accumulator fits 16 bits. *)
Lemma crcRounds_iter (j : nat) (crc : Z) :
  0 <= crc < 2 ^ 16 -> crcRounds j crc = Nat.iter j Spec.crcShift crc.
Proof.
  revert crc. induction j as [| j IH]; intros crc H; [reflexivity |].
  cbn [crcRounds]. rewrite band_low_bit, shr_one by exact H.
  pose proof (shiftr_one_below crc H) as Hs.
  rewrite negb_involutive.
  assert (Hstep : (if Z.testbit crc 0
                   then bxor (Z.shiftr crc 1) 0xA001
                   else Z.shiftr crc 1) = Spec.crcShift crc).
  { unfold Spec.crcShift. destruct (Z.testbit crc 0); [| reflexivity].
    apply bxor_u16; lia. }
  rewrite Hstep, IH by (apply crcShift_below; exact H).
  symmetry. apply Nat.iter_succ_r.
Qed.

End CrcFacts.

Section VerifyFacts.
Import Js NodeBuffer ModbusDecoder.

Lemma fold_left_cons {A B : Type} (f : A -> B -> A) (b : B) (l : list B)
  (a : A) : fold_left f (b :: l) a = fold_left f l (f a b).
Proof. reflexivity. Qed.

Lemma crcByte_below (acc : Z) (b : byte) :
  0 <= acc < 2 ^ 16 -> 0 <= Spec.crcByte acc b < 2 ^ 16.
Proof.
  intros H. unfold Spec.crcByte. apply iter_crcShift_below.
  pose proof (byteZ_range b). apply lxor_below; lia.
Qed.

Lemma crcByte_agree (acc : Z) (b : byte) :
  0 <= acc < 2 ^ 16 -> crcUpdate acc b = Spec.crcByte acc b.
Proof.
  intros H. pose proof (byteZ_range b) as Hb. unfold crcUpdate.
  rewrite bxor_u16 by lia. unfold Spec.crcByte.
  apply crcRounds_iter. apply lxor_below; lia.
Qed.

Lemma fold_crc_agree (data : Buffer) (acc : Z) :
  0 <= acc < 2 ^ 16 ->
  fold_left crcUpdate data acc = fold_left Spec.crcByte data acc
  /\ 0 <= fold_left Spec.crcByte data acc < 2 ^ 16.
Proof.
  revert acc. induction data as [| b data IH]; intros acc H.
  - split; [reflexivity | exact H].
  - rewrite !fold_left_cons, (crcByte_agree acc b H).
    exact (IH (Spec.crcByte acc b) (crcByte_below acc b H)).
Qed.

Lemma calculateCRC16_crc16 (data : Buffer) :
  calculateCRC16 data = Spec.crc16 data.
Proof.
  unfold calculateCRC16, Spec.crc16.
  exact (proj1 (fold_crc_agree data 0xFFFF ltac:(lia))).
Qed.

Lemma crc16_below (data : Buffer) : 0 <= Spec.crc16 data < 2 ^ 16.
Proof.
  unfold Spec.crc16.
  exact (proj2 (fold_crc_agree data 0xFFFF ltac:(lia))).
Qed.

Lemma len_app (a b : Buffer) : len (a ++ b) = len a + len b.
Proof. unfold len. rewrite length_app. lia. Qed.

Lemma len_nonneg (b : Buffer) : 0 <= len b.
Proof. unfold len. lia. Qed.

Lemma at_app_right (a b : Buffer) (i : Z) :
  0 <= i -> at_ (a ++ b) (len a + i) = at_ b i.
Proof.
  intros Hi. unfold at_.
  pose proof (len_nonneg a).
  destruct (len a + i <? 0) eqn:E1; [apply Z.ltb_lt in E1; lia |].
  destruct (i <? 0) eqn:E2; [apply Z.ltb_lt in E2; lia |].
  rewrite nth_error_app2 by (unfold len in *; lia).
  do 2 f_equal. unfold len. lia.
Qed.

Lemma split_last_two (data : Buffer) :
  2 <= len data -> exists b lo hi, data = b ++ [lo; hi].
Proof.
  intros H.
  destruct (exists_last (l := data)) as [d1 [hi ->]].
  { intros ->. unfold len in H. simpl in H. lia. }
  destruct (exists_last (l := d1)) as [b [lo ->]].
  { intros ->. unfold len in H. simpl in H. lia. }
  exists b, lo, hi. rewrite <- app_assoc. reflexivity.
Qed.

Lemma slice_drop_last_two (b : Buffer) (lo hi : byte) :
  slice (b ++ [lo; hi]) 0 (-2) = b.
Proof.
  unfold slice, clampIndex. rewrite len_app.
  pose proof (len_nonneg b). change (len [lo; hi]) with 2.
  change (0 <? 0) with false. change (-2 <? 0) with true. cbv iota.
  rewrite Z.min_l, Z.max_r by lia. simpl skipn.
  replace (Z.to_nat (len b + 2 + -2 - 0)) with (List.length b)
    by (unfold len; lia).
  rewrite firstn_app, Nat.sub_diag, firstn_all. simpl. apply app_nil_r.
Qed.

Lemma readUInt16LE_last_two (b : Buffer) (lo hi : byte) :
  readUInt16LE (b ++ [lo; hi]) (len (b ++ [lo; hi]) - 2)
    = Return (byteZ lo + byteZ hi * 2 ^ 8).
Proof.
  unfold readUInt16LE. rewrite len_app. change (len [lo; hi]) with 2.
  replace (len b + 2 - 2) with (len b + 0) by lia.
  replace (len b + 0 + 1) with (len b + 1) by lia.
  rewrite !at_app_right by lia. reflexivity.
Qed.

Lemma body_app (b : Buffer) (lo hi : byte) : Spec.body (b ++ [lo; hi]) = b.
Proof.
  unfold Spec.body.
  change (b ++ [lo; hi]) with (b ++ [lo] ++ [hi]).
  rewrite app_assoc, !removelast_last. reflexivity.
Qed.

Lemma received_app (b : Buffer) (lo hi : byte) :
  Spec.received (b ++ [lo; hi]) = byteZ lo + 256 * byteZ hi.
Proof.
  unfold Spec.received.
  change (b ++ [lo; hi]) with (b ++ [lo] ++ [hi]).
  rewrite app_assoc, removelast_last, !last_last. reflexivity.
Qed.

(** What [verifyCRC] answers on a frame of two bytes or more. *)
Lemma verifyCRC_app (b : Buffer) (lo hi : byte) :
  verifyCRC (b ++ [lo; hi])
    = Return (byteZ lo + 256 * byteZ hi =? Spec.crc16 b).
Proof.
  unfold verifyCRC.
  assert (Hlen : (len (b ++ [lo; hi]) <? 2) = false).
  { apply Z.ltb_ge. rewrite len_app. pose proof (len_nonneg b).
    change (len [lo; hi]) with 2. lia. }
  rewrite Hlen, readUInt16LE_last_two, slice_drop_last_two. cbn [bind].
  rewrite calculateCRC16_crc16. do 2 f_equal. lia.
Qed.

Lemma verifyCRC_returns (data : Buffer) : exists ok, verifyCRC data = Return ok.
Proof.
  destruct (Z.ltb_spec (len data) 2) as [Hlt | Hge].
  - exists false. unfold verifyCRC.
    apply Z.ltb_lt in Hlt. rewrite Hlt. reflexivity.
  - destruct (split_last_two data Hge) as (b & lo & hi & ->).
    eexists. apply verifyCRC_app.
Qed.

End VerifyFacts.

Section VerifierCharacterised.
Import Js NodeBuffer ModbusDecoder.

Lemma verifyCRC_short (data : Buffer) :
  len data < 2 -> verifyCRC data = Return false.
Proof.
  intros Hlt. unfold verifyCRC. apply Z.ltb_lt in Hlt. rewrite Hlt.
  reflexivity.
Qed.

Lemma verifyCRC_long (data : Buffer) :
  2 <= len data ->
  verifyCRC data = Return (Spec.crc16 (Spec.body data) =? Spec.received data).
Proof.
  intros Hge. destruct (split_last_two data Hge) as (b & lo & hi & ->).
  rewrite verifyCRC_app, body_app, received_app, Z.eqb_sym. reflexivity.
Qed.

End VerifierCharacterised.

(** ** The CRC verifier *)

(** C1: [verifyCRC] computes the Modbus CRC-16 (accumulator [0xFFFF], every
    byte xored into the low byte, then eight right shifts with an xor by
    [0xA001] after a set low bit) over the frame without its last two bytes,
    reads the last two bytes as a little-endian 16-bit integer, answers
    whether the two are equal, and answers no for every frame of fewer than
    two bytes; it never throws. *)
Theorem verifyCRC_is_modbus_crc16 :
  forall data : NodeBuffer.Buffer,
    ModbusDecoder.verifyCRC data
      = Js.Return
          (if NodeBuffer.len data <? 2 then false
           else (Spec.crc16 (Spec.body data) =? Spec.received data)).
Proof.
  intros data. destruct (Z.ltb_spec (NodeBuffer.len data) 2) as [Hlt | Hge].
  - apply verifyCRC_short, Hlt.
  - apply verifyCRC_long, Hge.
Qed.

Section ByteFacts.
Import NodeBuffer.

Lemma byteZ_toByte (z : Z) : byteZ (toByte z) = z mod 256.
Proof.
  unfold byteZ, toByte.
  pose proof (Z.mod_pos_bound z 256 ltac:(lia)) as Hm.
  destruct (Byte.of_N (Z.to_N (z mod 256))) as [b |] eqn:E.
  - apply Byte.to_of_N in E. rewrite E. lia.
  - apply Byte.of_N_None_iff in E. lia.
Qed.

Lemma toByte_byteZ (b : byte) : toByte (byteZ b) = b.
Proof.
  unfold toByte, byteZ. pose proof (Byte.to_N_bounded b) as Hb.
  rewrite Z.mod_small by lia. rewrite N2Z.id, Byte.of_to_N. reflexivity.
Qed.

Lemma toByte_mod (z : Z) : toByte (z mod 256) = toByte z.
Proof. unfold toByte. rewrite Z.mod_mod by lia. reflexivity. Qed.

End ByteFacts.

(** C2: a byte sequence followed by the two little-endian bytes of the
    CRC-16 the decoder itself computes for it passes [verifyCRC]. *)
Theorem appended_crc_passes_verification :
  forall b : NodeBuffer.Buffer,
    ModbusDecoder.verifyCRC (b ++ Spec.crcBytes (ModbusDecoder.calculateCRC16 b))
      = Js.Return true.
Proof.
  intros b. unfold Spec.crcBytes. rewrite verifyCRC_app.
  rewrite calculateCRC16_crc16, !byteZ_toByte.
  pose proof (crc16_below b) as Hc.
  change 0xFF with (Z.ones 8). rewrite Z.land_ones by lia.
  rewrite Z.shiftr_div_pow2 by lia. change (2 ^ 8) with 256.
  rewrite Z.mod_mod by lia.
  rewrite (Z.mod_small (Spec.crc16 b / 256))
    by (split; [apply Z.div_pos; lia | apply Z.div_lt_upper_bound; lia]).
  f_equal. apply Z.eqb_eq.
  pose proof (Z.div_mod (Spec.crc16 b) 256 ltac:(lia)). lia.
Qed.

(** ** The stages of [decodeModbusMessage] *)

Section DecodeFacts.
Import Js NodeBuffer ModbusDecoder.

Lemma odd_of_nat (n : nat) : Z.odd (Z.of_nat n) = Nat.odd n.
Proof.
  destruct (Nat.odd n) eqn:E.
  - apply Nat.odd_spec in E. destruct E as [k ->].
    apply Z.odd_spec. exists (Z.of_nat k). lia.
  - rewrite <- Z.negb_even. apply negb_false_iff.
    rewrite <- Nat.negb_even in E. apply negb_false_iff in E.
    apply Nat.even_spec in E. destruct E as [k ->].
    apply Z.even_spec. exists (Z.of_nat k). lia.
Qed.

Lemma odd_length_test (n : nat) :
  negb (Z.of_nat n mod 2 =? 0) = Nat.odd n.
Proof.
  rewrite <- odd_of_nat, Zodd_mod.
  pose proof (Z.mod_pos_bound (Z.of_nat n) 2 ltac:(lia)) as Hm.
  destruct (Z.eqb_spec (Z.of_nat n mod 2) 0) as [-> | Hne]; [reflexivity |].
  replace (Z.of_nat n mod 2) with 1 by lia. reflexivity.
Qed.

Lemma inputToBuffer_rejected (i : input) :
  Spec.rejected i = true ->
  exists e, inputToBuffer i = Throw e
            /\ Spec.failureOf e = Some Spec.InputFormatError.
Proof.
  destruct i as [b | s | a |]; cbn [Spec.rejected]; intros H;
    try discriminate.
  - unfold inputToBuffer. rewrite odd_length_test, H.
    eexists. split; reflexivity.
  - eexists. split; reflexivity.
Qed.

Lemma inputToBuffer_accepted (i : input) :
  Spec.rejected i = false -> exists buffer, inputToBuffer i = Return buffer.
Proof.
  destruct i as [b | s | a |]; cbn [Spec.rejected]; intros H;
    try discriminate; try (eexists; reflexivity).
  unfold inputToBuffer. rewrite odd_length_test, H. eexists. reflexivity.
Qed.

(** A failure of the normalizer is the failure of the call: nothing of the
    later stages runs. *)
Lemma decode_normalizer_failure (now : string) (i : input) (e : exn) :
  inputToBuffer i = Throw e -> decodeModbusMessage now i = Throw e.
Proof. intros H. unfold decodeModbusMessage. rewrite H. reflexivity. Qed.

Lemma short_buffer (buffer : Buffer) :
  len buffer < 4 ->
  match buffer with
  | _ :: _ :: _ :: _ :: _ => False
  | _ => True
  end.
Proof.
  unfold len. destruct buffer as [| ? [| ? [| ? [| ? ?]]]]; simpl; lia || auto.
Qed.

Lemma decode_too_short (now : string) (i : input) (buffer : Buffer) :
  inputToBuffer i = Return buffer -> len buffer < 4 ->
  decodeModbusMessage now i = Throw (Error "Message too short").
Proof.
  intros Hin Hlen. unfold decodeModbusMessage. rewrite Hin. cbn [bind].
  apply short_buffer in Hlen.
  destruct buffer as [| ? [| ? [| ? [| ? ?]]]]; try reflexivity.
  contradiction.
Qed.

Lemma long_buffer (buffer : Buffer) :
  4 <= len buffer ->
  exists b0 b1 b2 b3 rest, buffer = b0 :: b1 :: b2 :: b3 :: rest.
Proof.
  unfold len. destruct buffer as [| b0 [| b1 [| b2 [| b3 rest]]]]; simpl;
    try lia.
  intros _. exists b0, b1, b2, b3, rest. reflexivity.
Qed.

Lemma decode_crc_failure (now : string) (i : input) (buffer : Buffer) :
  inputToBuffer i = Return buffer -> 4 <= len buffer ->
  verifyCRC buffer = Return false ->
  decodeModbusMessage now i = Throw (Error "CRC check failed").
Proof.
  intros Hin Hlen Hcrc. unfold decodeModbusMessage. rewrite Hin. cbn [bind].
  destruct (long_buffer buffer Hlen) as (b0 & b1 & b2 & b3 & rest & ->).
  rewrite Hcrc. reflexivity.
Qed.

(** Past the three guards the call is the dispatch on the function
    code. *)
Lemma decode_dispatch (now : string) (i : input) (b0 b1 b2 b3 : byte)
  (rest : Buffer) :
  let buffer := b0 :: b1 :: b2 :: b3 :: rest in
  let done := Spec.frame now (byteZ b0) (byteZ b1) (toHexUpper buffer) in
  inputToBuffer i = Return buffer ->
  verifyCRC buffer = Return true ->
  decodeModbusMessage now i =
    if byteZ b1 =? 0x03 then
      registers <- readLoop (S (Z.to_nat (byteZ b2))) buffer
                     (inject_Z (byteZ b2) / 2)%Q 0 [] ;;
      Return (done registers None)
    else if byteZ b1 =? 0x06 then
      registerAddress <- readUInt16BE buffer 2 ;;
      registerValue <- readUInt16BE buffer 4 ;;
      Return (done (writeEntry [] registerAddress registerValue) None)
    else if byteZ b1 =? 0x83 then
      Return (done []
        (Some (Obj
          [ ("code", Int (byteZ b2));
            ("description",
             Str ("Modbus Error: " ++
                  or_else (lookup errorDescriptions (byteZ b2)) "Unknown error"));
            ("modbus_error", Bool true) ])))
    else Return (done [] None).
Proof.
  intros buffer done Hin Hcrc. subst buffer done.
  unfold decodeModbusMessage.
  rewrite Hin. cbn [bind]. rewrite Hcrc. cbn [bind negb].
  destruct (byteZ b1 =? 3); [reflexivity |].
  destruct (byteZ b1 =? 6); [reflexivity |].
  destruct (byteZ b1 =? 131); reflexivity.
Qed.

Lemma at_inside (b : Buffer) (i : Z) :
  0 <= i < len b -> at_ b i = Some (byteZ (nth (Z.to_nat i) b x00)).
Proof.
  intros H. unfold at_.
  destruct (i <? 0) eqn:E; [apply Z.ltb_lt in E; lia |].
  rewrite (nth_error_nth' b x00) by (unfold len in H; lia). reflexivity.
Qed.

Lemma at_outside (b : Buffer) (i : Z) : len b <= i -> at_ b i = None.
Proof.
  intros H. unfold at_. destruct (i <? 0); [reflexivity |].
  replace (nth_error b (Z.to_nat i)) with (@None byte); [reflexivity |].
  symmetry. apply nth_error_None. unfold len in H. lia.
Qed.

Lemma readUInt16BE_inside (b : Buffer) (offset : Z) :
  0 <= offset -> offset + 2 <= len b ->
  readUInt16BE b offset = Return (Spec.be16 b (Z.to_nat offset)).
Proof.
  intros H0 H1. unfold readUInt16BE, Spec.be16.
  rewrite !at_inside by lia.
  replace (Z.to_nat (offset + 1)) with (S (Z.to_nat offset)) by lia.
  f_equal. change (2 ^ 8) with 256. lia.
Qed.

Lemma readUInt16BE_outside (b : Buffer) (offset : Z) :
  len b < offset + 2 -> readUInt16BE b offset = Throw (RangeError offset).
Proof.
  intros H. unfold readUInt16BE.
  rewrite (at_outside b (offset + 1)) by lia.
  destruct (at_ b offset); reflexivity.
Qed.

(** The loop test [i < byteCount / 2] on integers. *)
Lemma loop_test (byteCount i : Z) :
  negb (Qle_bool (inject_Z byteCount / 2) (inject_Z i)) = (2 * i <? byteCount).
Proof.
  destruct (Z.ltb_spec (2 * i) byteCount) as [Hlt | Hge].
  - apply negb_true_iff. apply not_true_is_false. intros H.
    apply Qle_bool_iff in H. unfold Qle in H. simpl in H. lia.
  - apply negb_false_iff. apply Qle_bool_iff. unfold Qle. simpl. lia.
Qed.

Lemma below_registerCount (byteCount i : Z) :
  2 * i < byteCount <-> i < Spec.registerCount byteCount.
Proof.
  unfold Spec.registerCount.
  pose proof (Z.div_mod (byteCount + 1) 2 ltac:(lia)).
  pose proof (Z.mod_pos_bound (byteCount + 1) 2 ltac:(lia)).
  split; intros H1; lia.
Qed.

(** The loop over the registers of a read response: with the fuel the
    decoder's model gives it, it ends; it returns when every read is
    inside the frame and throws a [RangeError] otherwise. *)
Lemma readLoop_runs (buffer : Buffer) (byteCount : Z) (fuel : nat) :
  forall (i : Z) (registers : object),
    0 <= i ->
    (Z.to_nat (Spec.registerCount byteCount - i) < fuel)%nat ->
    (3 + 2 * Spec.registerCount byteCount <= len buffer
     \/ Spec.registerCount byteCount <= i ->
     exists registers',
       readLoop fuel buffer (inject_Z byteCount / 2)%Q i registers
         = Return registers')
    /\ (len buffer < 3 + 2 * Spec.registerCount byteCount ->
        i < Spec.registerCount byteCount ->
        exists offset,
          readLoop fuel buffer (inject_Z byteCount / 2)%Q i registers
            = Throw (RangeError offset)).
Proof.
  induction fuel as [| fuel IH]; intros i registers Hi Hfuel; [lia |].
  cbn [readLoop]. rewrite loop_test.
  destruct (Z.ltb_spec (2 * i) byteCount) as [Hlt | Hge].
  - apply below_registerCount in Hlt.
    destruct (Z.le_gt_cases (3 + i * 2 + 2) (len buffer)) as [Hin | Hout].
    + rewrite readUInt16BE_inside by lia. cbn [bind].
      match goal with
      | |- context [readLoop fuel buffer _ (i + 1) ?r] =>
          destruct (IH (i + 1) r ltac:(lia) ltac:(lia)) as [IH1 IH2]
      end.
      split.
      * intros [Hall | Hdone]; [| lia]. apply IH1. left. exact Hall.
      * intros Hshort _. apply IH2; [exact Hshort | lia].
    + rewrite readUInt16BE_outside by lia. cbn [bind]. split.
      * intros [Hall | Hdone]; lia.
      * intros _ _. eexists. reflexivity.
  - assert (Hdone : Spec.registerCount byteCount <= i).
    { destruct (Z.le_gt_cases (Spec.registerCount byteCount) i) as [H | H];
        [exact H |]. apply below_registerCount in H. lia. }
    split.
    + intros _. eexists. reflexivity.
    + intros _ Hbelow. lia.
Qed.

Lemma readUInt16BE_throws (b : Buffer) (offset : Z) (e : exn) :
  readUInt16BE b offset = Throw e -> e = RangeError offset.
Proof.
  unfold readUInt16BE.
  destruct (at_ b offset), (at_ b (offset + 1)); intros H;
    inversion H; reflexivity.
Qed.

Lemma readLoop_throws (buffer : Buffer) (registerCount : Q) (fuel : nat) :
  forall (i : Z) (registers : object) (e : exn),
    readLoop fuel buffer registerCount i registers = Throw e ->
    exists offset, e = RangeError offset.
Proof.
  induction fuel as [| fuel IH]; intros i registers e; cbn [readLoop];
    [discriminate |].
  destruct (negb (Qle_bool registerCount (inject_Z i))); [| discriminate].
  destruct (readUInt16BE buffer (3 + i * 2)) as [v | e' |] eqn:E;
    cbn [bind].
  - apply IH.
  - intros H. inversion H. subst e'. eexists.
    apply (readUInt16BE_throws _ _ _ E).
  - discriminate.
Qed.

(** Past the three guards only an out-of-range read can make the call
    throw. *)
Lemma decode_valid_throws (now : string) (i : input) (buffer : Buffer)
  (e : exn) :
  inputToBuffer i = Return buffer -> 4 <= len buffer ->
  verifyCRC buffer = Return true ->
  decodeModbusMessage now i = Throw e ->
  exists offset, e = RangeError offset.
Proof.
  intros Hin Hlen Hcrc.
  destruct (long_buffer buffer Hlen) as (b0 & b1 & b2 & b3 & rest & ->).
  rewrite (decode_dispatch now i b0 b1 b2 b3 rest Hin Hcrc).
  destruct (byteZ b1 =? 3).
  { destruct (readLoop _ _ _ _ _) as [r | e' |] eqn:E; cbn [bind];
      try discriminate.
    intros H. inversion H. subst e'. apply (readLoop_throws _ _ _ _ _ _ E). }
  destruct (byteZ b1 =? 6).
  { destruct (readUInt16BE _ 2) as [ra | e' |] eqn:E2; cbn [bind];
      try discriminate.
    destruct (readUInt16BE _ 4) as [rv | e' |] eqn:E4; cbn [bind];
      try discriminate.
    intros H. inversion H. subst e'. eexists.
    apply (readUInt16BE_throws _ _ _ E4). }
  destruct (byteZ b1 =? 131); discriminate.
Qed.

End DecodeFacts.

(** ** Frames past the guards *)

Section ValidFrames.
Import Js NodeBuffer ModbusDecoder.

Lemma frame_fullyFormed (now : string) (b0 b1 : byte) (rest : Buffer)
  (registers : object) (error : option value) :
  Spec.fullyFormed now (b0 :: b1 :: rest)
    (Spec.frame now (byteZ b0) (byteZ b1) (toHexUpper (b0 :: b1 :: rest))
       registers error).
Proof. exists registers, error. reflexivity. Qed.

(** What the dispatch does with a frame that passed the guards. *)
Lemma decode_valid_outcome (now : string) (i : input) (buffer : Buffer) :
  inputToBuffer i = Return buffer -> 4 <= len buffer ->
  verifyCRC buffer = Return true ->
  (Spec.readsInBounds buffer ->
   exists v, decodeModbusMessage now i = Return v
             /\ Spec.fullyFormed now buffer v)
  /\ (~ Spec.readsInBounds buffer ->
      exists offset, decodeModbusMessage now i = Throw (RangeError offset)).
Proof.
  intros Hin Hlen Hcrc.
  destruct (long_buffer buffer Hlen) as (b0 & b1 & b2 & b3 & rest & ->).
  rewrite (decode_dispatch now i b0 b1 b2 b3 rest Hin Hcrc).
  cbn [Spec.readsInBounds].
  set (buffer := b0 :: b1 :: b2 :: b3 :: rest) in *.
  pose proof (byteZ_range b2) as Hb2.
  destruct (Z.eqb_spec (byteZ b1) 3) as [E3 | N3].
  { assert (Hfuel : (Z.to_nat (Spec.registerCount (byteZ b2) - 0)
                     < S (Z.to_nat (byteZ b2)))%nat).
    { unfold Spec.registerCount.
      pose proof (Z.div_mod (byteZ b2 + 1) 2 ltac:(lia)).
      pose proof (Z.mod_pos_bound (byteZ b2 + 1) 2 ltac:(lia)). lia. }
    destruct (readLoop_runs buffer (byteZ b2) _ 0 [] ltac:(lia) Hfuel)
      as [Hok Hbad].
    split.
    - intros [Hread _]. destruct (Hok (or_introl (Hread E3))) as [r Hr].
      rewrite Hr. cbn [bind]. eexists. split; [reflexivity |].
      apply frame_fullyFormed.
    - intros Hno.
      assert (Hshort : len buffer < 3 + 2 * Spec.registerCount (byteZ b2)).
      { destruct (Z.le_gt_cases (3 + 2 * Spec.registerCount (byteZ b2))
                    (len buffer)) as [H | H]; [| lia].
        exfalso. apply Hno. split; intros; [exact H | lia]. }
      destruct (Hbad Hshort ltac:(lia)) as [offset Ho].
      rewrite Ho. exists offset. reflexivity. }
  destruct (Z.eqb_spec (byteZ b1) 6) as [E6 | N6].
  { rewrite (readUInt16BE_inside buffer 2) by lia. cbn [bind].
    destruct (Z.le_gt_cases 6 (len buffer)) as [H6 | H6].
    - rewrite (readUInt16BE_inside buffer 4) by lia. cbn [bind]. split.
      + intros _. eexists. split; [reflexivity |]. apply frame_fullyFormed.
      + intros Hno. exfalso. apply Hno. split; intros; [lia | exact H6].
    - rewrite (readUInt16BE_outside buffer 4) by lia. cbn [bind]. split.
      + intros [_ Hread]. specialize (Hread E6). lia.
      + intros _. eexists. reflexivity. }
  assert (Hfree : (byteZ b1 = 3 -> 3 + 2 * Spec.registerCount (byteZ b2)
                                    <= len buffer)
                  /\ (byteZ b1 = 6 -> 6 <= len buffer))
    by (split; intros; contradiction).
  destruct (byteZ b1 =? 131).
  - split; [| intros Hno; contradiction].
    intros _. eexists. split; [reflexivity |]. apply frame_fullyFormed.
  - split; [| intros Hno; contradiction].
    intros _. eexists. split; [reflexivity |]. apply frame_fullyFormed.
Qed.

Lemma readsInBounds_dec (buffer : Buffer) :
  Spec.readsInBounds buffer \/ ~ Spec.readsInBounds buffer.
Proof.
  destruct buffer as [| b0 [| b1 [| b2 rest]]]; cbn [Spec.readsInBounds];
    try (left; exact I).
  set (buffer := b0 :: b1 :: b2 :: rest).
  destruct (Z.le_gt_cases (3 + 2 * Spec.registerCount (byteZ b2)) (len buffer));
    destruct (Z.le_gt_cases 6 (len buffer));
    destruct (Z.eq_dec (byteZ b1) 3); destruct (Z.eq_dec (byteZ b1) 6);
    try (left; split; intros; (assumption || lia));
    right; intros [H3 H6]; try specialize (H3 ltac:(assumption));
    try specialize (H6 ltac:(assumption)); lia.
Qed.

End ValidFrames.

(** ** Failures of the decode call *)

(** C3, as the code has it: the decode call raises one of its three
    failures exactly in the matching case, and then returns no frame.  An
    unsupported input type, or a text of odd length once its white space is
    stripped, raises InputFormatError straight out of the normalizer, before
    the length test and the CRC check; a normalized frame of fewer than 4
    bytes raises FrameTooShortError; a frame of at least 4 bytes whose
    checksum does not match raises ChecksumError.  These are not the only
    failures: an input in none of the three cases decodes to a frame when
    every 16-bit read of its function code lies inside the frame, and
    otherwise raises a RangeError, again without a frame. *)
Theorem decode_failures_by_case :
  forall (now : string) (i : ModbusDecoder.input),
    match Spec.expectedFailure i with
    | Some k =>
        exists e, ModbusDecoder.decodeModbusMessage now i = Js.Throw e
                  /\ Spec.failureOf e = Some k
    | None =>
        exists buffer,
          ModbusDecoder.inputToBuffer i = Js.Return buffer
          /\ 4 <= NodeBuffer.len buffer
          /\ ModbusDecoder.verifyCRC buffer = Js.Return true
          /\ ((Spec.readsInBounds buffer
               /\ exists v,
                    ModbusDecoder.decodeModbusMessage now i = Js.Return v)
              \/ (~ Spec.readsInBounds buffer
                  /\ exists offset,
                       ModbusDecoder.decodeModbusMessage now i
                       = Js.Throw (Js.RangeError offset)))
    end
    /\ (forall e, ModbusDecoder.inputToBuffer i = Js.Throw e ->
                  ModbusDecoder.decodeModbusMessage now i = Js.Throw e
                  /\ Spec.rejected i = true
                  /\ Spec.failureOf e = Some Spec.InputFormatError).
Proof.
  intros now i. split.
  - unfold Spec.expectedFailure.
    destruct (Spec.rejected i) eqn:Hrej.
    + destruct (inputToBuffer_rejected i Hrej) as (e & He & Hk).
      exists e. split; [apply decode_normalizer_failure, He | exact Hk].
    + destruct (inputToBuffer_accepted i Hrej) as (buffer & Hin).
      rewrite Hin.
      destruct (Z.ltb_spec (NodeBuffer.len buffer) 4) as [Hshort | Hlong].
      * eexists. split; [apply (decode_too_short now i buffer Hin Hshort) |].
        reflexivity.
      * pose proof (verifyCRC_long buffer ltac:(lia)) as Hcrc.
        destruct (Spec.crc16 (Spec.body buffer) =? Spec.received buffer).
        -- exists buffer. split; [reflexivity |]. split; [exact Hlong |].
           split; [exact Hcrc |].
           destruct (decode_valid_outcome now i buffer Hin Hlong Hcrc)
             as [Hok Hbad].
           destruct (readsInBounds_dec buffer) as [Hyes | Hno].
           ++ left. split; [exact Hyes |].
              destruct (Hok Hyes) as (v & Hv & _). exists v. exact Hv.
           ++ right. split; [exact Hno | apply Hbad, Hno].
        -- eexists.
           split; [apply (decode_crc_failure now i buffer Hin Hlong Hcrc) |].
           reflexivity.
  - intros e He.
    destruct (Spec.rejected i) eqn:Hrej.
    + destruct (inputToBuffer_rejected i Hrej) as (e' & He' & Hk).
      rewrite He in He'. inversion He'. subst e'.
      repeat split; [apply decode_normalizer_failure, He | exact Hk].
    + destruct (inputToBuffer_accepted i Hrej) as (buffer & Hin).
      rewrite He in Hin. discriminate.
Qed.

(** The text [3f030], five digits, is an instance: InputFormatError out of
    the normalizer. *)
Lemma decode_failures_by_case_witness :
  ModbusDecoder.inputToBuffer
    (ModbusDecoder.InString (Js.codeUnits "3f030"))
    = Js.Throw (Js.Error "Invalid hex string length")
  /\ ModbusDecoder.decodeModbusMessage "2024-01-15T10:30:00.000Z"
       (ModbusDecoder.InString (Js.codeUnits "3f030"))
     = Js.Throw (Js.Error "Invalid hex string length")
  /\ Spec.failureOf (Js.Error "Invalid hex string length")
     = Some Spec.InputFormatError.
Proof.
  split; [reflexivity |].
  pose proof (proj2 (decode_failures_by_case "2024-01-15T10:30:00.000Z"
                       (ModbusDecoder.InString (Js.codeUnits "3f030")))
                _ eq_refl) as H.
  split; [exact (proj1 H) | exact (proj2 (proj2 H))].
Defined.

(** C3 as stated fails: the read response [3f 03 04 40 ff] is in none of
    the three cases (a supported type, 5 bytes, a matching checksum) and the
    decode call fails all the same, with a RangeError that is none of the
    three failures. *)
Lemma failure_outside_the_three_cases :
  Spec.expectedFailure (ModbusDecoder.InBuffer [x3f; x03; x04; x40; xff])
  = None
  /\ ModbusDecoder.decodeModbusMessage "2024-01-15T10:30:00.000Z"
       (ModbusDecoder.InBuffer [x3f; x03; x04; x40; xff])
     = Js.Throw (Js.RangeError 5)
  /\ Spec.failureOf (Js.RangeError 5) = None
  /\ ~ (forall (now : string) (i : ModbusDecoder.input) (e : Js.exn),
          ModbusDecoder.decodeModbusMessage now i = Js.Throw e ->
          exists k, Spec.expectedFailure i = Some k).
Proof.
  split; [vm_compute; reflexivity |].
  split; [vm_compute; reflexivity |].
  split; [reflexivity |].
  intros H.
  destruct (H "2024-01-15T10:30:00.000Z"
              (ModbusDecoder.InBuffer [x3f; x03; x04; x40; xff])
              (Js.RangeError 5) ltac:(vm_compute; reflexivity)) as [k Hk].
  vm_compute in Hk. discriminate.
Qed.

(** C4, as the code has it: for an input that passes normalization, has at
    least 4 bytes and passes the CRC check, the decode call ends either in a
    fully-formed frame or in a RangeError raised by a 16-bit read past the
    end of the frame; it ends in a frame exactly when every such read is
    inside the frame, that is, unless the function code is 3 and the walked
    registers do not fit or the function code is 6 and the frame has fewer
    than 6 bytes. *)
Theorem valid_frame_decodes_or_read_out_of_range :
  forall (now : string) (i : ModbusDecoder.input) (buffer : NodeBuffer.Buffer),
    ModbusDecoder.inputToBuffer i = Js.Return buffer ->
    4 <= NodeBuffer.len buffer ->
    ModbusDecoder.verifyCRC buffer = Js.Return true ->
    ((exists v, ModbusDecoder.decodeModbusMessage now i = Js.Return v
                /\ Spec.fullyFormed now buffer v)
     \/ (exists offset,
           ModbusDecoder.decodeModbusMessage now i
             = Js.Throw (Js.RangeError offset)))
    /\ ((exists v, ModbusDecoder.decodeModbusMessage now i = Js.Return v)
        <-> Spec.readsInBounds buffer).
Proof.
  intros now i buffer Hin Hlen Hcrc.
  destruct (decode_valid_outcome now i buffer Hin Hlen Hcrc) as [Hok Hbad].
  destruct (readsInBounds_dec buffer) as [Hyes | Hno].
  - destruct (Hok Hyes) as (v & Hv & Hf). split.
    + left. exists v. split; assumption.
    + split; [intros _; exact Hyes | intros _; exists v; exact Hv].
  - destruct (Hbad Hno) as (offset & Ho). split.
    + right. exists offset. exact Ho.
    + split; [| intros H; contradiction].
      intros [v Hv]. rewrite Ho in Hv. discriminate.
Qed.

(** The exception response [3f 83 02 a1 3d] is an instance: it decodes. *)
Lemma valid_frame_decodes_or_read_out_of_range_witness :
  Spec.readsInBounds [x3f; x83; x02; xa1; x3d]
  /\ exists v,
       ModbusDecoder.decodeModbusMessage "2024-01-15T10:30:00.000Z"
         (ModbusDecoder.InBuffer [x3f; x83; x02; xa1; x3d]) = Js.Return v.
Proof.
  pose proof (valid_frame_decodes_or_read_out_of_range
                "2024-01-15T10:30:00.000Z"
                (ModbusDecoder.InBuffer [x3f; x83; x02; xa1; x3d])
                [x3f; x83; x02; xa1; x3d]
                eq_refl ltac:(vm_compute; discriminate) eq_refl) as [_ H].
  split.
  - cbn [Spec.readsInBounds]. split; intros E; vm_compute in E; discriminate.
  - apply H. cbn [Spec.readsInBounds].
    split; intros E; vm_compute in E; discriminate.
Defined.

(** C4 as stated fails: a write acknowledgment of 4 bytes and a read
    response that announces 4 bytes of registers and carries none both pass
    the guards, and the decode call throws on a read past their end. *)
Lemma truncated_frames_raise :
  ModbusDecoder.inputToBuffer (ModbusDecoder.InBuffer [x3f; x06; x90; x42])
    = Js.Return [x3f; x06; x90; x42]
  /\ 4 <= NodeBuffer.len [x3f; x06; x90; x42]
  /\ ModbusDecoder.verifyCRC [x3f; x06; x90; x42] = Js.Return true
  /\ ModbusDecoder.decodeModbusMessage "2024-01-15T10:30:00.000Z"
       (ModbusDecoder.InBuffer [x3f; x06; x90; x42])
     = Js.Throw (Js.RangeError 4)
  /\ ModbusDecoder.verifyCRC [x3f; x03; x04; x40; xff] = Js.Return true
  /\ ModbusDecoder.decodeModbusMessage "2024-01-15T10:30:00.000Z"
       (ModbusDecoder.InBuffer [x3f; x03; x04; x40; xff])
     = Js.Throw (Js.RangeError 5)
  /\ ~ (forall (now : string) (i : ModbusDecoder.input)
               (buffer : NodeBuffer.Buffer),
          ModbusDecoder.inputToBuffer i = Js.Return buffer ->
          4 <= NodeBuffer.len buffer ->
          ModbusDecoder.verifyCRC buffer = Js.Return true ->
          exists v, ModbusDecoder.decodeModbusMessage now i = Js.Return v).
Proof.
  repeat (split; [vm_compute; (reflexivity || discriminate) |]).
  intros H.
  destruct (H "2024-01-15T10:30:00.000Z"
              (ModbusDecoder.InBuffer [x3f; x06; x90; x42])
              [x3f; x06; x90; x42]
              eq_refl ltac:(vm_compute; discriminate) eq_refl) as [v Hv].
  vm_compute in Hv. discriminate.
Qed.

(** ** Register values *)

Section RegisterFacts.
Import Js NodeBuffer ModbusDecoder.

Lemma land_pow2 (a k : Z) :
  0 <= k -> Z.land a (2 ^ k) = if Z.testbit a k then 2 ^ k else 0.
Proof.
  intros Hk. apply Z.bits_inj'. intros n Hn.
  rewrite Z.land_spec, Z.pow2_bits_eqb by lia.
  destruct (Z.eqb_spec k n) as [-> | Hne].
  - destruct (Z.testbit a n); cbn [andb].
    + rewrite Z.pow2_bits_true by lia. reflexivity.
    + rewrite Z.bits_0. reflexivity.
  - rewrite andb_false_r.
    destruct (Z.testbit a k).
    + rewrite Z.pow2_bits_false by lia. reflexivity.
    + rewrite Z.bits_0. reflexivity.
Qed.

(** [(a & mask) !== 0] for a one-bit mask tests that bit. *)
Lemma band_bit_test (a k : Z) :
  0 <= a < 2 ^ 16 -> 0 <= k < 16 ->
  negb (band a (2 ^ k) =? 0) = Z.testbit a k.
Proof.
  intros Ha Hk. unfold band.
  assert (Hp : 0 < 2 ^ k < 2 ^ 16).
  { split; [apply Z.pow_pos_nonneg; lia |].
    apply Z.pow_lt_mono_r; lia. }
  rewrite (toInt32_small a), (toInt32_small (2 ^ k)) by lia.
  rewrite land_pow2 by lia.
  destruct (Z.testbit a k).
  - rewrite toInt32_small by lia.
    destruct (Z.eqb_spec (2 ^ k) 0); [lia | reflexivity].
  - reflexivity.
Qed.

Lemma lookup_above {A : Type} (t : list (Z * A)) (k : Z) :
  (forall x, In x (map fst t) -> x < k) -> lookup t k = None.
Proof.
  induction t as [| [k' a] t IH]; intros H; [reflexivity |].
  cbn [lookup]. destruct (Z.eqb_spec k' k) as [-> | Hne].
  - specialize (H k (or_introl eq_refl)). lia.
  - apply IH. intros x Hx. apply H. right. exact Hx.
Qed.

Lemma lookup_In {A : Type} (t : list (Z * A)) (k : Z) (a : A) :
  lookup t k = Some a -> In (k, a) t.
Proof.
  induction t as [| [k' a'] t IH]; cbn [lookup]; [discriminate |].
  destruct (Z.eqb_spec k' k) as [-> | Hne]; intros H.
  - inversion H. left. reflexivity.
  - right. apply IH, H.
Qed.

(** The scales of the register table are positive. *)
Lemma table_scale_positive (registerAddress : Z) (register : ModbusRegister)
  (s : Q) :
  lookup MODBUS_REGISTERS registerAddress = Some register ->
  scale register = Some s -> (0 < s)%Q.
Proof.
  intros E Hs. apply lookup_In in E. cbn [In MODBUS_REGISTERS] in E.
  repeat (destruct E as [E | E];
          [injection E as <- <-; cbn [scale] in Hs;
           try discriminate Hs; injection Hs as <-; reflexivity |]).
  contradiction.
Qed.

Lemma errorText_lookup (raw : Z) :
  0 <= raw ->
  or_else (lookup ERROR_CODES raw) "Unknown error" = Spec.errorText raw.
Proof.
  intros H0. unfold Spec.errorText.
  destruct (Z.lt_ge_cases raw 17) as [Hlt | Hge].
  - rewrite <- (Z2Nat.id raw H0).
    assert (Hn : (Z.to_nat raw < 17)%nat) by lia.
    rewrite Nat2Z.id. revert Hn. generalize (Z.to_nat raw). intros n Hn.
    do 17 (destruct n as [| n]; [reflexivity |]). lia.
  - rewrite lookup_above.
    + rewrite nth_overflow; [reflexivity |]. cbn [List.length Spec.errorTexts]. lia.
    + cbn [map fst ERROR_CODES]. intros x Hx. cbn [In] in Hx.
      repeat (destruct Hx as [<- | Hx]; [lia |]). contradiction.
Qed.

Lemma statusText_lookup (raw : Z) :
  or_else (lookup statusMap raw) "Unknown status" = Spec.statusText raw.
Proof.
  destruct raw as [| p | p]; try reflexivity.
  repeat (destruct p as [p | p |]; try reflexivity).
Qed.

Lemma rangeText_lookup (raw : Z) :
  or_else (lookup rangeMap raw) ("Unknown (" ++ decimal raw ++ ")")
    = Spec.rangeText raw.
Proof.
  destruct raw as [| p | p]; try reflexivity.
  repeat (destruct p as [p | p |]; try reflexivity).
Qed.

Lemma exceptionText_lookup (code : Z) :
  or_else (lookup errorDescriptions code) "Unknown error"
    = Spec.exceptionText code.
Proof.
  destruct code as [| p | p]; try reflexivity.
  repeat (destruct p as [p | p |]; try reflexivity).
Qed.

(** The switch on the address as a table with a default. *)
Lemma address_switch {A : Type} (a : Z) (x6 x7 x20 x4097 x25 d : A) :
  match a with
  | 0x0006 => x6
  | 0x0007 => x7
  | 0x0014 => x20
  | 0x1001 => x4097
  | 0x0019 => x25
  | _ => d
  end
  = if a =? 0x0006 then x6
    else if a =? 0x0007 then x7
    else if a =? 0x0014 then x20
    else if a =? 0x1001 then x4097
    else if a =? 0x0019 then x25
    else d.
Proof.
  destruct a as [| p | p]; try reflexivity.
  repeat (destruct p as [p | p |]; try reflexivity).
Qed.

Lemma scaled_truthy (s : Q) : (0 < s)%Q -> truthy s = true.
Proof.
  intros Hs. unfold truthy. apply negb_true_iff. apply not_true_is_false.
  intros H. apply Qeq_bool_iff in H. rewrite H in Hs.
  exact (Qlt_irrefl 0 Hs).
Qed.

Lemma toFixed3_nonneg (x : Q) : (0 <= x)%Q -> toFixed3 x = Spec.round3 x.
Proof.
  intros Hx. unfold toFixed3, Spec.round3, roundHalfUp3.
  apply Qle_bool_iff in Hx. rewrite Hx. reflexivity.
Qed.

(** The scaled value of a register whose scale is a tenth or a hundredth
    is the raw value divided by ten or by a hundred, exactly. *)
Lemma round3_tenths (raw : Z) :
  Spec.round3 (inject_Z raw * (1 # 10)) = Qred (raw # 10).
Proof.
  unfold Spec.round3. apply Qred_complete.
  unfold Qfloor, Qmult, Qplus, inject_Z, Qeq. cbn [Qnum Qden].
  replace ((raw * 1 * 1000 * 2 + 1 * Z.pos (1 * 10 * 1))
           / Z.pos (1 * 10 * 1 * 2)) with (raw * 100).
  - lia.
  - change (Z.pos (1 * 10 * 1 * 2)) with 20.
    change (Z.pos (1 * 10 * 1)) with 10.
    apply Z.div_unique with (r := 10); lia.
Qed.

Lemma round3_hundredths (raw : Z) :
  Spec.round3 (inject_Z raw * (1 # 100)) = Qred (raw # 100).
Proof.
  unfold Spec.round3. apply Qred_complete.
  unfold Qfloor, Qmult, Qplus, inject_Z, Qeq. cbn [Qnum Qden].
  replace ((raw * 1 * 1000 * 2 + 1 * Z.pos (1 * 100 * 1))
           / Z.pos (1 * 100 * 1 * 2)) with (raw * 10).
  - lia.
  - change (Z.pos (1 * 100 * 1 * 2)) with 200.
    change (Z.pos (1 * 100 * 1)) with 100.
    apply Z.div_unique with (r := 100); lia.
Qed.

End RegisterFacts.

Section StatusFacts.
Import Js ModbusDecoder.

Lemma decodeStatusRegister_bits (status : Z) :
  0 <= status < 2 ^ 16 ->
  decodeStatusRegister status
    = Obj [ ("water_shortage", Bool (Z.testbit status 0));
            ("running", Bool (Z.testbit status 1));
            ("raw_value", Int status) ].
Proof.
  intros H. unfold decodeStatusRegister.
  pose proof (band_bit_test status 0 H ltac:(lia)) as H0.
  pose proof (band_bit_test status 1 H ltac:(lia)) as H1.
  change (2 ^ 0) with 1 in H0. change (2 ^ 1) with 2 in H1.
  rewrite H0, H1. reflexivity.
Qed.

End StatusFacts.

(** C5: for a register descriptor of the table and a raw 16-bit value,
    [decodeRegisterValue] is the decoded register of the specification: the
    override of the addresses 0x0006 (error table of 17 texts, default
    "Unknown error"), 0x0007 (bit 0 water_shortage, bit 1 running), 0x0014
    ('H' for 72, else 'L'), 0x1001 (status texts, default "Unknown status"),
    0x0019 (ranges in bar, default "Unknown (<raw>)"), and for every other
    address the raw value times the scale rounded to three decimals, or the
    raw value itself without a scale.  The decoder is a total function: no
    path fails. *)
Theorem decodeRegisterValue_by_address :
  forall (registerAddress : Z) (register : ModbusDecoder.ModbusRegister)
         (raw : Z),
    Js.lookup ModbusDecoder.MODBUS_REGISTERS registerAddress = Some register ->
    0 <= raw < 2 ^ 16 ->
    ModbusDecoder.decodeRegisterValue register raw
      = Spec.decodedRegister register raw.
Proof.
  intros registerAddress register raw Htable Hraw.
  pose proof (table_scale_positive registerAddress register) as Hscale.
  unfold ModbusDecoder.decodeRegisterValue, Spec.decodedRegister.
  rewrite address_switch.
  destruct (ModbusDecoder.address register =? 6).
  { rewrite errorText_lookup by lia. reflexivity. }
  destruct (ModbusDecoder.address register =? 7).
  { apply decodeStatusRegister_bits, Hraw. }
  destruct (ModbusDecoder.address register =? 20); [reflexivity |].
  destruct (ModbusDecoder.address register =? 4097).
  { rewrite statusText_lookup. reflexivity. }
  destruct (ModbusDecoder.address register =? 25).
  { rewrite rangeText_lookup. reflexivity. }
  destruct (ModbusDecoder.scale register) as [s |]; [| reflexivity].
  specialize (Hscale s Htable eq_refl).
  rewrite (scaled_truthy s Hscale).
  rewrite toFixed3_nonneg; [reflexivity |].
  apply Qmult_le_0_compat; [| apply Qlt_le_weak, Hscale].
  unfold Qle, inject_Z. cbn [Qnum Qden]. lia.
Qed.

(** The output frequency register at raw value 500 is an instance: 50. *)
Lemma decodeRegisterValue_by_address_witness :
  ModbusDecoder.decodeRegisterValue
    (ModbusDecoder.mkRegister 0x0001 "output_frequency" "0.1 Hz"
       "Current output frequency value" true (Some (1 # 10)%Q)) 500
  = Js.Obj [ ("value", Js.Num 50); ("raw_value", Js.Num 500) ].
Proof.
  rewrite (decodeRegisterValue_by_address 0x0001
             (ModbusDecoder.mkRegister 0x0001 "output_frequency" "0.1 Hz"
                "Current output frequency value" true (Some (1 # 10)%Q)) 500).
  - reflexivity.
  - reflexivity.
  - lia.
Defined.

(** ** Objects *)

Section ObjectFacts.
Import Js.

Lemma get_set_same (o : object) (k : string) (v : value) :
  get (set o k v) k = Some v.
Proof.
  induction o as [| [k' v'] o IH]; cbn [set get].
  - rewrite String.eqb_refl. reflexivity.
  - destruct (String.eqb k' k) eqn:E; cbn [get]; rewrite E;
      [reflexivity | exact IH].
Qed.

Lemma literal_snoc (props : list (string * value)) (k : string) (v : value) :
  literal (props ++ [(k, v)]) = set (literal props) k v.
Proof. unfold literal. rewrite fold_left_app. reflexivity. Qed.

End ObjectFacts.

(** ** Read responses *)

(** C6 fails on the code for the register 0x0006: the entry of a known
    register is the object literal that spreads the decoded value and then
    defines unit, description, address and read_only, so the description of
    the descriptor replaces the error text of the decoded value.  For every
    raw value the entry of address 0x0006 reads "Error code" where the
    decoded value has the text of the error table, and the read response
    [3f 03 0c 00.. 00 01 ec a0], whose sixth register is the error code 1,
    decodes to an [error_code] entry without "Equipment overcurrent, short
    circuit". *)
Theorem read_response_overwrites_error_text :
  (forall raw : Z,
     ModbusDecoder.readEntry 0x0006 raw
       = ("error_code",
          Js.Obj [ ("code", Js.Int raw);
                   ("description", Js.Str "Error code");
                   ("raw_value", Js.Int raw);
                   ("unit", Js.Str "");
                   ("address", Js.Int 6);
                   ("read_only", Js.Bool true) ])
     /\ Js.get
          (Js.spread
             (ModbusDecoder.decodeRegisterValue
                (ModbusDecoder.mkRegister 0x0006 "error_code" "" "Error code"
                   true None) raw))
          "description"
        = Some (Js.Str (Js.or_else (Js.lookup ModbusDecoder.ERROR_CODES raw)
                          "Unknown error")))
  /\ exists props registers entry,
       ModbusDecoder.decodeModbusMessage "2024-01-15T10:30:00.000Z"
         (ModbusDecoder.InString
            (Js.codeUnits "3f030c000000000000000000000001eca0"))
         = Js.Return (Js.Obj props)
       /\ Js.get props "registers" = Some (Js.Obj registers)
       /\ Js.get registers "error_code" = Some (Js.Obj entry)
       /\ Js.get entry "code" = Some (Js.Int 1)
       /\ Js.get entry "description" = Some (Js.Str "Error code")
       /\ Js.or_else (Js.lookup ModbusDecoder.ERROR_CODES 1) "Unknown error"
          = "Equipment overcurrent, short circuit".
Proof.
  split.
  - intros raw. split; reflexivity.
  - do 3 eexists. vm_compute. repeat split; reflexivity.
Qed.

(** ** Write acknowledgments *)

Section WriteFacts.
Import Js NodeBuffer ModbusDecoder.

Lemma writeEntry_known (register : ModbusRegister) (registerAddress registerValue : Z) :
  lookup MODBUS_REGISTERS registerAddress = Some register ->
  exists entry,
    writeEntry [] registerAddress registerValue = [(name register, Obj entry)]
    /\ get entry "operation" = Some (Str "write").
Proof.
  intros H. unfold writeEntry. rewrite H. cbn [set].
  eexists. split; [reflexivity |].
  change [ ("unit", Str (unit register));
           ("description", Str (description register));
           ("address", Int registerAddress);
           ("read_only", Bool (readOnly register));
           ("operation", Str "write") ]
    with ([ ("unit", Str (unit register));
            ("description", Str (description register));
            ("address", Int registerAddress);
            ("read_only", Bool (readOnly register)) ]
          ++ [("operation", Str "write")]).
  rewrite app_assoc, literal_snoc. apply get_set_same.
Qed.

Lemma writeEntry_unknown (registerAddress registerValue : Z) :
  lookup MODBUS_REGISTERS registerAddress = None ->
  writeEntry [] registerAddress registerValue = [].
Proof. intros H. unfold writeEntry. rewrite H. reflexivity. Qed.

End WriteFacts.

(** C7, as the code has it: a frame of function code 0x06 that passed the
    guards and has at least 6 bytes is decoded by reading the register
    address at offset 2 and the value at offset 4, both big-endian; a known
    address gives a registers map of exactly one entry, under the name of
    the register and tagged [operation: "write"]; an unknown address leaves
    the registers map empty.  A frame of 4 or 5 bytes does not hold the
    value: the read at offset 4 raises a RangeError and no entry is
    inserted, known address or not. *)
Theorem write_ack_one_entry_or_none :
  forall (now : string) (i : ModbusDecoder.input) (buffer : NodeBuffer.Buffer),
    ModbusDecoder.inputToBuffer i = Js.Return buffer ->
    4 <= NodeBuffer.len buffer ->
    ModbusDecoder.verifyCRC buffer = Js.Return true ->
    NodeBuffer.byteZ (nth 1 buffer x00) = 0x06 ->
    (6 <= NodeBuffer.len buffer ->
     exists registers,
       ModbusDecoder.decodeModbusMessage now i
         = Js.Return
             (Spec.frame now (NodeBuffer.byteZ (nth 0 buffer x00)) 0x06
                (NodeBuffer.toHexUpper buffer) registers None)
       /\ registers
          = ModbusDecoder.writeEntry [] (Spec.be16 buffer 2) (Spec.be16 buffer 4)
       /\ match Js.lookup ModbusDecoder.MODBUS_REGISTERS (Spec.be16 buffer 2) with
          | Some register =>
              exists entry,
                registers = [(ModbusDecoder.name register, Js.Obj entry)]
                /\ Js.get entry "operation" = Some (Js.Str "write")
          | None => registers = []
          end)
    /\ (NodeBuffer.len buffer < 6 ->
        ModbusDecoder.decodeModbusMessage now i
        = Js.Throw (Js.RangeError 4)).
Proof.
  intros now i buffer Hin Hlen Hcrc Hfc.
  destruct (long_buffer buffer Hlen) as (b0 & b1 & b2 & b3 & rest & ->).
  cbn [nth] in Hfc |- *.
  rewrite (decode_dispatch now i b0 b1 b2 b3 rest Hin Hcrc).
  rewrite Hfc. cbn [Z.eqb Pos.eqb].
  rewrite (readUInt16BE_inside _ 2) by lia. cbn [Js.bind].
  split.
  - intros H6.
    rewrite (readUInt16BE_inside _ 4) by lia.
    cbn [Js.bind]. change (Z.to_nat 2) with 2%nat.
    change (Z.to_nat 4) with 4%nat.
    eexists. split; [reflexivity |]. split; [reflexivity |].
    destruct (Js.lookup ModbusDecoder.MODBUS_REGISTERS _) as [register |] eqn:E.
    + apply (writeEntry_known register _ _ E).
    + apply (writeEntry_unknown _ _ E).
  - intros H6. rewrite (readUInt16BE_outside _ 4) by lia. reflexivity.
Qed.

(** Two write acknowledgments are instances: [3f 06 10 01 00 11 18 18] for
    the known register 0x1001 and [3f 06 00 08 00 11 cc da] for the unknown
    address 0x0008. *)
Lemma write_ack_one_entry_or_none_witness :
  (exists registers entry,
     ModbusDecoder.decodeModbusMessage "2024-01-15T10:30:00.000Z"
       (ModbusDecoder.InBuffer [x3f; x06; x10; x01; x00; x11; x18; x18])
       = Js.Return
           (Spec.frame "2024-01-15T10:30:00.000Z" 63 6 "3F06100100111818"
              registers None)
     /\ registers = [("status_command", Js.Obj entry)]
     /\ Js.get entry "operation" = Some (Js.Str "write"))
  /\ ModbusDecoder.decodeModbusMessage "2024-01-15T10:30:00.000Z"
       (ModbusDecoder.InBuffer [x3f; x06; x00; x08; x00; x11; xcc; xda])
     = Js.Return
         (Spec.frame "2024-01-15T10:30:00.000Z" 63 6 "3F0600080011CCDA"
            [] None).
Proof.
  split.
  - destruct (proj1 (write_ack_one_entry_or_none "2024-01-15T10:30:00.000Z"
                (ModbusDecoder.InBuffer [x3f; x06; x10; x01; x00; x11; x18; x18])
                [x3f; x06; x10; x01; x00; x11; x18; x18]
                eq_refl ltac:(vm_compute; discriminate) eq_refl eq_refl)
              ltac:(vm_compute; discriminate))
      as (registers & Hdec & _ & Hcase).
    change (Js.lookup ModbusDecoder.MODBUS_REGISTERS
              (Spec.be16 [x3f; x06; x10; x01; x00; x11; x18; x18] 2))
      with (Some (ModbusDecoder.mkRegister 0x1001 "status_command" ""
                    "Command status code" false None)) in Hcase.
    destruct Hcase as (entry & Hregs & Hop).
    exists registers, entry. split; [exact Hdec |]. split; assumption.
  - destruct (proj1 (write_ack_one_entry_or_none "2024-01-15T10:30:00.000Z"
                (ModbusDecoder.InBuffer [x3f; x06; x00; x08; x00; x11; xcc; xda])
                [x3f; x06; x00; x08; x00; x11; xcc; xda]
                eq_refl ltac:(vm_compute; discriminate) eq_refl eq_refl)
              ltac:(vm_compute; discriminate))
      as (registers & Hdec & _ & Hcase).
    change (Js.lookup ModbusDecoder.MODBUS_REGISTERS
              (Spec.be16 [x3f; x06; x00; x08; x00; x11; xcc; xda] 2))
      with (@None ModbusDecoder.ModbusRegister) in Hcase.
    rewrite Hcase in Hdec. exact Hdec.
Defined.

(** C7 as stated fails: the write acknowledgment [0b 06 00 03 a2], of 5
    bytes, passes the guards and the address read at offset 2, 0x0003, is
    in the register table, yet no entry is inserted: the decode call raises
    a RangeError on the read at offset 4 and returns no result. *)
Lemma short_write_ack_inserts_nothing :
  ModbusDecoder.inputToBuffer (ModbusDecoder.InBuffer [x0b; x06; x00; x03; xa2])
  = Js.Return [x0b; x06; x00; x03; xa2]
  /\ ModbusDecoder.verifyCRC [x0b; x06; x00; x03; xa2] = Js.Return true
  /\ NodeBuffer.byteZ (nth 1 [x0b; x06; x00; x03; xa2] x00) = 0x06
  /\ NodeBuffer.readUInt16BE [x0b; x06; x00; x03; xa2] 2 = Js.Return 0x0003
  /\ (exists register,
        Js.lookup ModbusDecoder.MODBUS_REGISTERS 0x0003 = Some register)
  /\ ModbusDecoder.decodeModbusMessage "2024-01-15T10:30:00.000Z"
       (ModbusDecoder.InBuffer [x0b; x06; x00; x03; xa2])
     = Js.Throw (Js.RangeError 4)
  /\ ~ (exists v,
          ModbusDecoder.decodeModbusMessage "2024-01-15T10:30:00.000Z"
            (ModbusDecoder.InBuffer [x0b; x06; x00; x03; xa2])
          = Js.Return v).
Proof.
  split; [reflexivity |].
  split; [vm_compute; reflexivity |].
  split; [reflexivity |].
  split; [reflexivity |].
  split; [eexists; reflexivity |].
  split; [vm_compute; reflexivity |].
  intros [v Hv]. vm_compute in Hv. discriminate.
Qed.

(** ** Exception responses *)

(** C8: a frame of function code 0x83 that passed the guards decodes to a
    frame whose registers map is empty and whose error is
    [{ code: byte[2], description: "Modbus Error: <text>", modbus_error: true }],
    the text being that of the exception code (1 to 4) or "Unknown error";
    the text [3f8302a13d] decodes with function code 131, function name
    "Error Response", error code 2 and description
    "Modbus Error: Illegal Data Address". *)
Theorem exception_response_decoded :
  (forall (now : string) (i : ModbusDecoder.input) (buffer : NodeBuffer.Buffer),
     ModbusDecoder.inputToBuffer i = Js.Return buffer ->
     4 <= NodeBuffer.len buffer ->
     ModbusDecoder.verifyCRC buffer = Js.Return true ->
     NodeBuffer.byteZ (nth 1 buffer x00) = 0x83 ->
     ModbusDecoder.decodeModbusMessage now i
       = Js.Return
           (Spec.frame now (NodeBuffer.byteZ (nth 0 buffer x00)) 0x83
              (NodeBuffer.toHexUpper buffer) []
              (Some (Spec.exceptionError
                       (NodeBuffer.byteZ (nth 2 buffer x00))))))
  /\ (forall now : string,
        ModbusDecoder.decodeModbusMessage now
          (ModbusDecoder.InString (Js.codeUnits "3f8302a13d"))
        = Js.Return
            (Js.Obj
               [ ("slave_address", Js.Int 63);
                 ("function_code", Js.Int 131);
                 ("function_name", Js.Str "Error Response");
                 ("raw_data", Js.Str "3F8302A13D");
                 ("timestamp", Js.Str now);
                 ("registers", Js.Obj []);
                 ("error",
                  Js.Obj
                    [ ("code", Js.Int 2);
                      ("description",
                       Js.Str "Modbus Error: Illegal Data Address");
                      ("modbus_error", Js.Bool true) ]) ])).
Proof.
  split.
  - intros now i buffer Hin Hlen Hcrc Hfc.
    destruct (long_buffer buffer Hlen) as (b0 & b1 & b2 & b3 & rest & ->).
    cbn [nth] in Hfc |- *.
    rewrite (decode_dispatch now i b0 b1 b2 b3 rest Hin Hcrc).
    rewrite Hfc. cbn [Z.eqb Pos.eqb].
    rewrite exceptionText_lookup. reflexivity.
  - intros now. reflexivity.
Qed.

(** The frame [3f 83 02 a1 3d] handed over as a buffer is an instance. *)
Lemma exception_response_decoded_witness :
  ModbusDecoder.decodeModbusMessage "2024-01-15T10:30:00.000Z"
    (ModbusDecoder.InBuffer [x3f; x83; x02; xa1; x3d])
  = Js.Return
      (Spec.frame "2024-01-15T10:30:00.000Z" 63 131 "3F8302A13D" []
         (Some (Spec.exceptionError 2))).
Proof.
  exact (proj1 exception_response_decoded "2024-01-15T10:30:00.000Z"
           (ModbusDecoder.InBuffer [x3f; x83; x02; xa1; x3d])
           [x3f; x83; x02; xa1; x3d]
           eq_refl ltac:(vm_compute; discriminate) eq_refl eq_refl).
Defined.

(** ** The fields of a decode result *)

Section ResultFacts.
Import Js NodeBuffer ModbusDecoder.

(** A call that returns went through the three guards and returns a
    fully-formed result. *)
Lemma decode_returns (now : string) (i : input) (v : value) :
  decodeModbusMessage now i = Return v ->
  exists buffer,
    inputToBuffer i = Return buffer /\ 4 <= len buffer
    /\ verifyCRC buffer = Return true /\ Spec.fullyFormed now buffer v.
Proof.
  intros Hdec.
  destruct (inputToBuffer i) as [buffer | e |] eqn:Hin.
  - exists buffer.
    destruct (Z.lt_ge_cases (len buffer) 4) as [Hshort | Hlong].
    { rewrite (decode_too_short now i buffer Hin Hshort) in Hdec.
      discriminate. }
    destruct (verifyCRC_returns buffer) as [[|] Hcrc].
    + destruct (decode_valid_outcome now i buffer Hin Hlong Hcrc)
        as [Hok Hbad].
      destruct (readsInBounds_dec buffer) as [Hyes | Hno].
      * destruct (Hok Hyes) as (v' & Hv' & Hf).
        rewrite Hv' in Hdec. inversion Hdec. subst v'.
        repeat split; assumption.
      * destruct (Hbad Hno) as (offset & Ho). rewrite Ho in Hdec.
        discriminate.
    + rewrite (decode_crc_failure now i buffer Hin Hlong Hcrc) in Hdec.
      discriminate.
  - rewrite (decode_normalizer_failure now i e Hin) in Hdec. discriminate.
  - unfold decodeModbusMessage in Hdec. rewrite Hin in Hdec. discriminate.
Qed.

End ResultFacts.

(** C9, as the code has it: the result of the core decode call carries the
    capture timestamp itself, the clock reading of the call.  Every result
    is an object whose fields are slave_address, function_code,
    function_name, raw_data, timestamp and registers, in this order,
    followed by error when there is one. *)
Theorem decode_result_has_timestamp :
  forall (now : string) (i : ModbusDecoder.input) (v : Js.value),
    ModbusDecoder.decodeModbusMessage now i = Js.Return v ->
    exists props,
      v = Js.Obj props
      /\ Js.get props "timestamp" = Some (Js.Str now)
      /\ (Js.keys props = Spec.frameFields
          \/ Js.keys props = Spec.frameFields ++ ["error"]).
Proof.
  intros now i v Hdec.
  destruct (decode_returns now i v Hdec)
    as (buffer & _ & _ & _ & registers & error & ->).
  unfold Spec.frame. eexists. split; [reflexivity |].
  split; [reflexivity |].
  destruct error; [right | left]; reflexivity.
Qed.

(** The exception response [3f8302a13d] is an instance. *)
Lemma decode_result_has_timestamp_witness :
  exists props,
    ModbusDecoder.decodeModbusMessage "2024-01-15T10:30:00.000Z"
      (ModbusDecoder.InString (Js.codeUnits "3f8302a13d"))
    = Js.Return (Js.Obj props)
    /\ Js.get props "timestamp" = Some (Js.Str "2024-01-15T10:30:00.000Z").
Proof.
  assert (Hdec : ModbusDecoder.decodeModbusMessage "2024-01-15T10:30:00.000Z"
                   (ModbusDecoder.InString (Js.codeUnits "3f8302a13d"))
                 = Js.Return
                     (Spec.frame "2024-01-15T10:30:00.000Z" 63 131
                        "3F8302A13D" [] (Some (Spec.exceptionError 2))))
    by reflexivity.
  destruct (decode_result_has_timestamp _ _ _ Hdec) as (props & Hv & Ht & _).
  exists props. split; [| exact Ht].
  rewrite <- Hv. exact Hdec.
Defined.

(** C9 as stated fails: the result of decoding [3f8302a13d] has a field
    [timestamp], which is not among slave_address, function_code,
    function_name, raw_data, registers and error. *)
Lemma decode_result_timestamp_field :
  ModbusDecoder.decodeModbusMessage "2024-01-15T10:30:00.000Z"
    (ModbusDecoder.InString (Js.codeUnits "3f8302a13d"))
  = Js.Return
      (Js.Obj
         [ ("slave_address", Js.Int 63);
           ("function_code", Js.Int 131);
           ("function_name", Js.Str "Error Response");
           ("raw_data", Js.Str "3F8302A13D");
           ("timestamp", Js.Str "2024-01-15T10:30:00.000Z");
           ("registers", Js.Obj []);
           ("error",
            Js.Obj
              [ ("code", Js.Int 2);
                ("description", Js.Str "Modbus Error: Illegal Data Address");
                ("modbus_error", Js.Bool true) ]) ])
  /\ ~ In "timestamp" Spec.coreFields
  /\ ~ (forall (now : string) (i : ModbusDecoder.input)
               (props : Js.object),
          ModbusDecoder.decodeModbusMessage now i = Js.Return (Js.Obj props) ->
          incl (Js.keys props) Spec.coreFields).
Proof.
  assert (Hno : ~ In "timestamp" Spec.coreFields).
  { cbn [In Spec.coreFields]. intros H.
    repeat (destruct H as [H | H]; [discriminate H |]). exact H. }
  split; [reflexivity |]. split; [exact Hno |].
  intros H. apply Hno.
  refine (H "2024-01-15T10:30:00.000Z"
            (ModbusDecoder.InString (Js.codeUnits "3f8302a13d"))
            [ ("slave_address", Js.Int 63);
              ("function_code", Js.Int 131);
              ("function_name", Js.Str "Error Response");
              ("raw_data", Js.Str "3F8302A13D");
              ("timestamp", Js.Str "2024-01-15T10:30:00.000Z");
              ("registers", Js.Obj []);
              ("error",
               Js.Obj
                 [ ("code", Js.Int 2);
                   ("description", Js.Str "Modbus Error: Illegal Data Address");
                   ("modbus_error", Js.Bool true) ]) ]
            eq_refl "timestamp" _).
  cbn [Js.keys map fst In]. do 4 right. left. reflexivity.
Qed.

(** ** Arrays of integers *)

Section ArrayFacts.
Import Js NodeBuffer ModbusDecoder.

Lemma toByte_congruent (x y : Z) :
  x mod 256 = y mod 256 -> toByte x = toByte y.
Proof. intros H. unfold toByte. rewrite H. reflexivity. Qed.

Lemma fromArray_congruent (a1 a2 : list Z) :
  Forall2 (fun x y => x mod 256 = y mod 256) a1 a2 ->
  fromArray a1 = fromArray a2.
Proof.
  induction 1 as [| x y a1 a2 Hxy _ IH]; [reflexivity |].
  cbn [fromArray map]. f_equal; [apply toByte_congruent, Hxy | exact IH].
Qed.

End ArrayFacts.

(** C10: an array of integers is never rejected by the normalizer; every
    element [v] becomes the byte [v mod 256], out of range or not; and two
    arrays whose elements are congruent modulo 256 decode to the same
    outcome. *)
Theorem array_elements_taken_modulo_256 :
  (forall a : list Z,
     ModbusDecoder.inputToBuffer (ModbusDecoder.InArray a)
       = Js.Return (NodeBuffer.fromArray a)
     /\ map NodeBuffer.byteZ (NodeBuffer.fromArray a)
        = map (fun v => v mod 256) a)
  /\ (forall (now : string) (a1 a2 : list Z),
        Forall2 (fun x y => x mod 256 = y mod 256) a1 a2 ->
        ModbusDecoder.decodeModbusMessage now (ModbusDecoder.InArray a1)
        = ModbusDecoder.decodeModbusMessage now (ModbusDecoder.InArray a2)).
Proof.
  split.
  - intros a. split; [reflexivity |].
    unfold NodeBuffer.fromArray. rewrite map_map.
    apply map_ext. intros v. apply byteZ_toByte.
  - intros now a1 a2 H. unfold ModbusDecoder.decodeModbusMessage.
    cbn [ModbusDecoder.inputToBuffer].
    rewrite (fromArray_congruent a1 a2 H). reflexivity.
Qed.

(** The exception response written with elements outside the range of a
    byte is an instance: it decodes as the frame [3f 83 02 a1 3d]. *)
Lemma array_elements_taken_modulo_256_witness :
  Forall2 (fun x y => x mod 256 = y mod 256)
    [0x13f; -125; 514; 0xa1; 0x3d] [0x3f; 0x83; 0x02; 0xa1; 0x3d]
  /\ ModbusDecoder.decodeModbusMessage "2024-01-15T10:30:00.000Z"
       (ModbusDecoder.InArray [0x13f; -125; 514; 0xa1; 0x3d])
     = Js.Return
         (Spec.frame "2024-01-15T10:30:00.000Z" 63 131 "3F8302A13D" []
            (Some (Spec.exceptionError 2))).
Proof.
  assert (H : Forall2 (fun x y => x mod 256 = y mod 256)
                [0x13f; -125; 514; 0xa1; 0x3d] [0x3f; 0x83; 0x02; 0xa1; 0x3d])
    by (repeat constructor).
  split; [exact H |].
  rewrite (proj2 array_elements_taken_modulo_256
             "2024-01-15T10:30:00.000Z" _ _ H).
  reflexivity.
Defined.

(** ** The registers map of a read response *)

Section ReadFacts.
Import Js NodeBuffer ModbusDecoder.

Lemma distinctb_NoDup (l : list string) : Spec.distinctb l = true -> NoDup l.
Proof.
  induction l as [| x l IH]; intros H; [constructor |].
  cbn [Spec.distinctb] in H. apply andb_true_iff in H. destruct H as [Hx Hl].
  constructor; [| apply IH, Hl].
  intros Hin. apply negb_true_iff in Hx.
  assert (Hex : existsb (String.eqb x) l = true).
  { apply existsb_exists. exists x. split; [exact Hin | apply String.eqb_refl]. }
  rewrite Hex in Hx. discriminate.
Qed.

(** The keys of the 128 registers a read response can hold are pairwise
    different. *)
Lemma registerKeys_NoDup : NoDup (map Spec.registerKey (seq 0 128)).
Proof. apply distinctb_NoDup. vm_compute. reflexivity. Qed.

Lemma registerKey_fresh (k : nat) :
  (k < 128)%nat -> ~ In (Spec.registerKey k) (map Spec.registerKey (seq 0 k)).
Proof.
  intros Hk Hin. pose proof registerKeys_NoDup as Hnd.
  replace 128%nat with (k + S (127 - k))%nat in Hnd by lia.
  rewrite seq_app, map_app in Hnd. cbn [seq map Nat.add] in Hnd.
  apply NoDup_remove_2 in Hnd. apply Hnd. apply in_or_app. left. exact Hin.
Qed.

Lemma fst_readEntry (registerAddress registerValue : Z) :
  fst (readEntry registerAddress registerValue)
    = fst (readEntry registerAddress 0).
Proof.
  unfold readEntry. destruct (lookup MODBUS_REGISTERS registerAddress);
    reflexivity.
Qed.

Lemma keys_registerEntries (buffer : Buffer) (n : nat) :
  keys (Spec.registerEntries buffer n) = map Spec.registerKey (seq 0 n).
Proof.
  unfold keys, Spec.registerEntries. rewrite map_map.
  apply map_ext. intros i. apply fst_readEntry.
Qed.

Lemma set_fresh (o : object) (k : string) (v : value) :
  ~ In k (keys o) -> set o k v = o ++ [(k, v)].
Proof.
  induction o as [| [k' v'] o IH]; intros Hk; [reflexivity |].
  cbn [set]. destruct (String.eqb_spec k' k) as [-> | Hne].
  - exfalso. apply Hk. left. reflexivity.
  - cbn [app]. f_equal. apply IH. intros Hin. apply Hk. right. exact Hin.
Qed.

Lemma registerEntries_S (buffer : Buffer) (k : nat) :
  (k < 128)%nat ->
  set (Spec.registerEntries buffer k)
    (fst (readEntry (1 + Z.of_nat k) (Spec.be16 buffer (3 + 2 * k))))
    (snd (readEntry (1 + Z.of_nat k) (Spec.be16 buffer (3 + 2 * k))))
  = Spec.registerEntries buffer (S k).
Proof.
  intros Hk. rewrite set_fresh.
  - unfold Spec.registerEntries. rewrite seq_S, map_app. cbn [map Nat.add].
    rewrite <- surjective_pairing. reflexivity.
  - rewrite keys_registerEntries, fst_readEntry. apply registerKey_fresh, Hk.
Qed.

(** The loop, started at register [k] with the first [k] entries in place,
    leaves the entries of all the registers when these fit the frame. *)
Lemma readLoop_entries (buffer : Buffer) (byteCount : Z) (fuel : nat) :
  forall k : nat,
    0 <= byteCount < 256 ->
    3 + 2 * Spec.registerCount byteCount <= len buffer ->
    Z.of_nat k <= Spec.registerCount byteCount ->
    (Z.to_nat (Spec.registerCount byteCount) - k < fuel)%nat ->
    readLoop fuel buffer (inject_Z byteCount / 2)%Q (Z.of_nat k)
      (Spec.registerEntries buffer k)
    = Return (Spec.registerEntries buffer
                (Z.to_nat (Spec.registerCount byteCount))).
Proof.
  induction fuel as [| fuel IH]; intros k Hbc Hfit Hk Hfuel; [lia |].
  assert (Hrc : Spec.registerCount byteCount <= 128).
  { unfold Spec.registerCount.
    pose proof (Z.div_mod (byteCount + 1) 2 ltac:(lia)).
    pose proof (Z.mod_pos_bound (byteCount + 1) 2 ltac:(lia)). lia. }
  cbn [readLoop]. rewrite loop_test.
  destruct (Z.ltb_spec (2 * Z.of_nat k) byteCount) as [Hlt | Hge].
  - apply below_registerCount in Hlt.
    rewrite readUInt16BE_inside by lia. cbn [bind].
    replace (Z.to_nat (3 + Z.of_nat k * 2)) with (3 + 2 * k)%nat by lia.
    rewrite registerEntries_S by lia.
    replace (Z.of_nat k + 1) with (Z.of_nat (S k)) by lia.
    apply IH; lia.
  - assert (Hdone : Spec.registerCount byteCount <= Z.of_nat k).
    { destruct (Z.le_gt_cases (Spec.registerCount byteCount) (Z.of_nat k))
        as [H | H]; [exact H |]. apply below_registerCount in H. lia. }
    replace (Z.to_nat (Spec.registerCount byteCount)) with k by lia.
    reflexivity.
Qed.

(** A read response that passed the guards and holds the registers it
    announces decodes to the entries of these registers, in their order:
    register [i] is read at offset [3 + 2 * i], has the address [1 + i] and
    goes under the name of its descriptor or under [unknown_0x<address>]. *)
Lemma read_response_registers (now : string) (i : input) (buffer : Buffer) :
  inputToBuffer i = Return buffer -> 4 <= len buffer ->
  verifyCRC buffer = Return true ->
  byteZ (nth 1 buffer x00) = 0x03 ->
  3 + 2 * Spec.registerCount (byteZ (nth 2 buffer x00)) <= len buffer ->
  decodeModbusMessage now i
    = Return
        (Spec.frame now (byteZ (nth 0 buffer x00)) 0x03 (toHexUpper buffer)
           (Spec.registerEntries buffer
              (Z.to_nat (Spec.registerCount (byteZ (nth 2 buffer x00)))))
           None).
Proof.
  intros Hin Hlen Hcrc Hfc Hfit.
  destruct (long_buffer buffer Hlen) as (b0 & b1 & b2 & b3 & rest & ->).
  cbn [nth] in Hfc, Hfit |- *.
  rewrite (decode_dispatch now i b0 b1 b2 b3 rest Hin Hcrc).
  rewrite Hfc. cbn [Z.eqb Pos.eqb].
  pose proof (byteZ_range b2) as Hb2.
  assert (Hrc : 0 <= Spec.registerCount (byteZ b2) <= byteZ b2).
  { unfold Spec.registerCount.
    pose proof (Z.div_mod (byteZ b2 + 1) 2 ltac:(lia)).
    pose proof (Z.mod_pos_bound (byteZ b2 + 1) 2 ltac:(lia)). lia. }
  rewrite (readLoop_entries _ (byteZ b2) _ 0%nat) by (cbn [Z.of_nat]; lia).
  reflexivity.
Qed.

(** The unknown register of address 0x0008 keeps its raw value. *)
Lemma readEntry_unknown (registerValue : Z) :
  readEntry 0x0008 registerValue
    = ("unknown_0x0008",
       Obj [ ("value", Int registerValue);
             ("raw_value", Int registerValue);
             ("unit", Str "unknown");
             ("description", Str "Unknown register");
             ("address", Int 8) ]).
Proof. reflexivity. Qed.

(** The call ends: the fuel of the loop is never used up. *)
Lemma decode_terminates (now : string) (i : input) :
  decodeModbusMessage now i <> OutOfFuel.
Proof.
  intros Hdec.
  destruct (inputToBuffer i) as [buffer | e |] eqn:Hin.
  - destruct (Z.lt_ge_cases (len buffer) 4) as [Hshort | Hlong].
    { rewrite (decode_too_short now i buffer Hin Hshort) in Hdec.
      discriminate. }
    destruct (verifyCRC_returns buffer) as [[|] Hcrc].
    + destruct (decode_valid_outcome now i buffer Hin Hlong Hcrc)
        as [Hok Hbad].
      destruct (readsInBounds_dec buffer) as [Hyes | Hno].
      * destruct (Hok Hyes) as (v & Hv & _). rewrite Hv in Hdec.
        discriminate.
      * destruct (Hbad Hno) as (offset & Ho). rewrite Ho in Hdec.
        discriminate.
    + rewrite (decode_crc_failure now i buffer Hin Hlong Hcrc) in Hdec.
      discriminate.
  - rewrite (decode_normalizer_failure now i e Hin) in Hdec. discriminate.
  - destruct i as [b | s | a |]; cbn [inputToBuffer] in Hin;
      try discriminate.
    destruct (negb _) in Hin; discriminate.
Qed.

End ReadFacts.

(** ** Sample frames of the documentation *)

(** The checksum of the documented read response. *)
Example crc_of_documented_response :
  ModbusDecoder.calculateCRC16
    (NodeBuffer.fromHex
       (Js.codeUnits
          "3f032c01f4000100ea0020000000000001000000000001001e000a001e004c0014000a00f00000000600550000003f"))
  = 0xEE38.
Proof. vm_compute. reflexivity. Qed.

(** White space and the case of the digits do not matter. *)
Example spaced_text_decodes :
  ModbusDecoder.decodeModbusMessage "2024-01-15T10:30:00.000Z"
    (ModbusDecoder.InString (Js.codeUnits "3f 83 02 A1 3D"))
  = ModbusDecoder.decodeModbusMessage "2024-01-15T10:30:00.000Z"
      (ModbusDecoder.InString (Js.codeUnits "3f8302a13d")).
Proof. vm_compute. reflexivity. Qed.

(** The documented request frame announces no register bytes. *)
Example request_frame_decodes :
  ModbusDecoder.decodeModbusMessage "2024-01-15T10:30:00.000Z"
    (ModbusDecoder.InArray [0x3f; 0x03; 0x00; 0x01; 0x00; 0x16; 0x91; 0x1a])
  = Js.Return
      (Spec.frame "2024-01-15T10:30:00.000Z" 63 3 "3F0300010016911A" [] None).
Proof. vm_compute. reflexivity. Qed.

(** One flipped bit of the body is caught. *)
Example flipped_bit_rejected :
  ModbusDecoder.decodeModbusMessage "2024-01-15T10:30:00.000Z"
    (ModbusDecoder.InBuffer [x3f; x83; x03; xa1; x3d])
  = Js.Throw (Js.Error "CRC check failed").
Proof. vm_compute. reflexivity. Qed.

(** ** Corrupted frames *)

Section CorruptionFacts.
Import Js NodeBuffer ModbusDecoder.

Lemma crcShift_lxor (a b : Z) :
  Spec.crcShift (Z.lxor a b) = Z.lxor (Spec.crcShift a) (Spec.crcShift b).
Proof.
  unfold Spec.crcShift. rewrite Z.lxor_spec, Z.shiftr_lxor.
  destruct (Z.testbit a 0), (Z.testbit b 0); cbn [xorb];
    apply Z.bits_inj'; intros n Hn; rewrite ?Z.lxor_spec;
    repeat match goal with
           | |- context [Z.testbit ?t n] => destruct (Z.testbit t n)
           end; reflexivity.
Qed.

Lemma crcShift_zero (a : Z) :
  0 <= a < 2 ^ 16 -> Spec.crcShift a = 0 -> a = 0.
Proof.
  intros Ha. unfold Spec.crcShift.
  pose proof (shiftr_one_below a Ha) as Hs.
  destruct (Z.testbit a 0) eqn:E; intros H.
  - apply Z.lxor_eq in H. lia.
  - rewrite Z.shiftr_div_pow2 in H by lia. change (2 ^ 1) with 2 in H.
    rewrite Z.bit0_odd in E.
    assert (Hlt : a < 2).
    { destruct (Z.lt_ge_cases a 2) as [Hl | Hg]; [exact Hl |].
      pose proof (Z.div_le_mono 2 a 2 ltac:(lia) Hg) as Hd.
      change (2 / 2) with 1 in Hd. lia. }
    destruct (Z.eq_dec a 0) as [-> | Hne]; [reflexivity |].
    replace a with 1 in E by lia. discriminate.
Qed.

Lemma lxor_cancel_r (a b c : Z) : Z.lxor a c = Z.lxor b c -> a = b.
Proof.
  intros H. apply Z.lxor_eq.
  replace (Z.lxor a b) with (Z.lxor (Z.lxor a c) (Z.lxor b c)).
  - rewrite H. apply Z.lxor_nilpotent.
  - apply Z.bits_inj'. intros n Hn. rewrite !Z.lxor_spec.
    destruct (Z.testbit a n), (Z.testbit b n), (Z.testbit c n); reflexivity.
Qed.

Lemma crcShift_injective (a b : Z) :
  0 <= a < 2 ^ 16 -> 0 <= b < 2 ^ 16 ->
  Spec.crcShift a = Spec.crcShift b -> a = b.
Proof.
  intros Ha Hb H. apply Z.lxor_eq. apply crcShift_zero.
  - apply lxor_below; lia.
  - rewrite crcShift_lxor, H. apply Z.lxor_nilpotent.
Qed.

Lemma iter_crcShift_injective (n : nat) (a b : Z) :
  0 <= a < 2 ^ 16 -> 0 <= b < 2 ^ 16 ->
  Nat.iter n Spec.crcShift a = Nat.iter n Spec.crcShift b -> a = b.
Proof.
  intros Ha Hb. induction n as [| n IH]; cbn [Nat.iter]; [auto |].
  intros H. apply IH. apply crcShift_injective; [| | exact H];
    apply iter_crcShift_below; assumption.
Qed.

Lemma byteZ_injective (b b' : byte) : byteZ b = byteZ b' -> b = b'.
Proof.
  intros H. rewrite <- (toByte_byteZ b), <- (toByte_byteZ b'), H.
  reflexivity.
Qed.

Lemma crcByte_injective_state (s s' : Z) (b : byte) :
  0 <= s < 2 ^ 16 -> 0 <= s' < 2 ^ 16 ->
  Spec.crcByte s b = Spec.crcByte s' b -> s = s'.
Proof.
  intros Hs Hs' H. unfold Spec.crcByte in H.
  pose proof (byteZ_range b) as Hb.
  apply iter_crcShift_injective in H; [| apply lxor_below; lia ..].
  apply (lxor_cancel_r _ _ _ H).
Qed.

Lemma crcByte_injective_byte (s : Z) (b b' : byte) :
  0 <= s < 2 ^ 16 -> Spec.crcByte s b = Spec.crcByte s b' -> b = b'.
Proof.
  intros Hs H. unfold Spec.crcByte in H.
  pose proof (byteZ_range b) as Hb. pose proof (byteZ_range b') as Hb'.
  apply iter_crcShift_injective in H; [| apply lxor_below; lia ..].
  apply byteZ_injective.
  rewrite (Z.lxor_comm s (byteZ b)), (Z.lxor_comm s (byteZ b')) in H.
  apply (lxor_cancel_r _ _ _ H).
Qed.

Lemma fold_crcByte_injective (l : Buffer) :
  forall s s' : Z,
    0 <= s < 2 ^ 16 -> 0 <= s' < 2 ^ 16 ->
    fold_left Spec.crcByte l s = fold_left Spec.crcByte l s' -> s = s'.
Proof.
  induction l as [| b l IH]; intros s s' Hs Hs' H; [exact H |].
  rewrite !fold_left_cons in H.
  apply IH in H; [| apply crcByte_below; assumption ..].
  apply (crcByte_injective_state s s' b Hs Hs' H).
Qed.

(** Two bodies that differ in one byte have different checksums. *)
Lemma crc16_one_byte (pre suf : Buffer) (b b' : byte) :
  b <> b' -> Spec.crc16 (pre ++ b :: suf) <> Spec.crc16 (pre ++ b' :: suf).
Proof.
  intros Hne H. apply Hne. unfold Spec.crc16 in H.
  rewrite !fold_left_app, !fold_left_cons in H.
  pose proof (proj2 (fold_crc_agree pre 0xFFFF ltac:(lia))) as Hs.
  apply fold_crcByte_injective in H; [| apply crcByte_below; exact Hs ..].
  apply (crcByte_injective_byte _ b b' Hs H).
Qed.

Lemma split_suffix (suf : Buffer) :
  suf = [] \/ (exists h, suf = [h])
  \/ exists suf' lo hi, suf = suf' ++ [lo; hi].
Proof.
  destruct suf as [| x [| y suf']].
  - left. reflexivity.
  - right. left. exists x. reflexivity.
  - right. right.
    destruct (split_last_two (x :: y :: suf')) as (s & lo & hi & E).
    { unfold len. cbn [List.length]. lia. }
    exists s, lo, hi. exact E.
Qed.

Lemma Return_injective {A : Type} (x y : A) :
  @Return A x = Return y -> x = y.
Proof. intros H. injection H as E. exact E. Qed.

Lemma verifyCRC_one_byte (pre suf : Buffer) (b b' : byte) :
  b <> b' ->
  verifyCRC (pre ++ b :: suf) = Return true ->
  verifyCRC (pre ++ b' :: suf) = Return false.
Proof.
  intros Hne.
  assert (Hz : byteZ b <> byteZ b')
    by (intros E; apply Hne, byteZ_injective, E).
  destruct (split_suffix suf) as [-> | [[h ->] | (suf' & lo & hi & ->)]].
  - intros Htrue.
    destruct (exists_last (l := pre)) as [pre' [lo ->]].
    { intros ->. cbn [app] in Htrue.
      rewrite verifyCRC_short in Htrue by (unfold len; cbn [List.length]; lia).
      discriminate. }
    revert Htrue. rewrite <- !app_assoc. cbn [app]. rewrite !verifyCRC_app.
    intros H. apply Return_injective, Z.eqb_eq in H. f_equal.
    apply Z.eqb_neq. lia.
  - rewrite !verifyCRC_app.
    intros H. apply Return_injective, Z.eqb_eq in H. f_equal.
    apply Z.eqb_neq. lia.
  - change (pre ++ b :: suf' ++ [lo; hi])
      with (pre ++ (b :: suf') ++ [lo; hi]).
    change (pre ++ b' :: suf' ++ [lo; hi])
      with (pre ++ (b' :: suf') ++ [lo; hi]).
    rewrite !app_assoc, !verifyCRC_app.
    intros H. apply Return_injective, Z.eqb_eq in H. f_equal.
    apply Z.eqb_neq. rewrite H.
    apply crc16_one_byte, Hne.
Qed.

End CorruptionFacts.

(** X1: a frame that decodes stops decoding when any one of its bytes, of
    the body or of the checksum, is replaced by another value: the CRC check
    fails. *)
Theorem one_byte_corruption_is_detected :
  forall (now : string) (pre suf : NodeBuffer.Buffer) (b b' : byte)
         (v : Js.value),
    b <> b' ->
    ModbusDecoder.decodeModbusMessage now
      (ModbusDecoder.InBuffer (pre ++ b :: suf)) = Js.Return v ->
    ModbusDecoder.verifyCRC (pre ++ b' :: suf) = Js.Return false
    /\ ModbusDecoder.decodeModbusMessage now
         (ModbusDecoder.InBuffer (pre ++ b' :: suf))
       = Js.Throw (Js.Error "CRC check failed").
Proof.
  intros now pre suf b b' v Hne Hdec.
  destruct (decode_returns now _ v Hdec) as (buffer & Hin & Hlen & Hcrc & _).
  cbn [ModbusDecoder.inputToBuffer] in Hin. inversion Hin. subst buffer.
  pose proof (verifyCRC_one_byte pre suf b b' Hne Hcrc) as Hbad.
  split; [exact Hbad |].
  apply (decode_crc_failure now (ModbusDecoder.InBuffer (pre ++ b' :: suf))
           (pre ++ b' :: suf) eq_refl); [| exact Hbad].
  unfold NodeBuffer.len in *. rewrite length_app in *.
  cbn [List.length] in *. lia.
Qed.

(** The exception response with its exception code changed from 2 to 3. *)
Lemma one_byte_corruption_is_detected_witness :
  ModbusDecoder.decodeModbusMessage "2024-01-15T10:30:00.000Z"
    (ModbusDecoder.InBuffer ([x3f; x83] ++ x03 :: [xa1; x3d]))
  = Js.Throw (Js.Error "CRC check failed").
Proof.
  refine (proj2 (one_byte_corruption_is_detected "2024-01-15T10:30:00.000Z"
                   [x3f; x83] [xa1; x3d] x02 x03
                   (Spec.frame "2024-01-15T10:30:00.000Z" 63 131 "3F8302A13D"
                      [] (Some (Spec.exceptionError 2)))
                   _ eq_refl)).
  discriminate.
Defined.

(** X2: whatever the bytes, the checksum [calculateCRC16] computes with the
    signed 32-bit operators is an unsigned 16-bit number. *)
Theorem calculateCRC16_is_16_bits :
  forall data : NodeBuffer.Buffer,
    0 <= ModbusDecoder.calculateCRC16 data < 2 ^ 16.
Proof.
  intros data. rewrite calculateCRC16_crc16. apply crc16_below.
Qed.

(** ** The encodings of a frame *)

Section EncodingFacts.
Import Js NodeBuffer ModbusDecoder.

Lemma hexDigit_unhex (upper : bool) (d : Z) :
  0 <= d < 16 ->
  unhex (N_of_ascii (hexDigit upper d)) = Some d
  /\ isSpace (N_of_ascii (hexDigit upper d)) = false.
Proof.
  intros H.
  assert (Hd : d = 0 \/ d = 1 \/ d = 2 \/ d = 3 \/ d = 4 \/ d = 5 \/ d = 6
               \/ d = 7 \/ d = 8 \/ d = 9 \/ d = 10 \/ d = 11 \/ d = 12
               \/ d = 13 \/ d = 14 \/ d = 15) by lia.
  destruct upper;
    repeat (destruct Hd as [-> | Hd]; [split; reflexivity |]);
    subst d; split; reflexivity.
Qed.

Lemma nibbles (x : byte) :
  0 <= byteZ x / 16 < 16 /\ 0 <= byteZ x mod 16 < 16.
Proof.
  pose proof (byteZ_range x) as Hx. split.
  - split; [apply Z.div_pos; lia | apply Z.div_lt_upper_bound; lia].
  - apply Z.mod_pos_bound. lia.
Qed.

Lemma hexUnits_spells (upper : bool) (b : Buffer) :
  Props.spells (Props.hexUnits upper b) b.
Proof.
  induction b as [| x b IH]; [constructor |].
  destruct (nibbles x) as [Hh Hl].
  cbn [Props.hexUnits flat_map app]. constructor; [| | exact IH].
  - apply hexDigit_unhex, Hh.
  - apply hexDigit_unhex, Hl.
Qed.

Lemma stripSpaces_hexUnits (upper : bool) (b : Buffer) :
  stripSpaces (Props.hexUnits upper b) = Props.hexUnits upper b.
Proof.
  induction b as [| x b IH]; [reflexivity |].
  destruct (nibbles x) as [Hh Hl].
  cbn [Props.hexUnits flat_map app]. unfold stripSpaces. cbn [filter].
  rewrite (proj2 (hexDigit_unhex upper _ Hh)),
          (proj2 (hexDigit_unhex upper _ Hl)).
  cbn [negb]. do 2 f_equal. exact IH.
Qed.

Lemma codeUnits_app (s1 s2 : string) :
  codeUnits (s1 ++ s2) = codeUnits s1 ++ codeUnits s2.
Proof.
  unfold codeUnits. induction s1 as [| c s1 IH]; [reflexivity |].
  cbn [String.append list_ascii_of_string map app]. f_equal. exact IH.
Qed.

Lemma concat_empty_cons (x : string) (l : list string) :
  String.concat "" (x :: l) = (x ++ String.concat "" l)%string.
Proof.
  destruct l as [| y l]; cbn [String.concat].
  - induction x as [| c x IH]; [reflexivity |].
    cbn [String.append]. f_equal. exact IH.
  - reflexivity.
Qed.

(** The text [toString('hex').toUpperCase()] gives: two upper-case digits
    for every byte. *)
Lemma codeUnits_toHexUpper (b : Buffer) :
  codeUnits (toHexUpper b) = Props.hexUnits true b.
Proof.
  unfold toHexUpper. induction b as [| x b IH]; [reflexivity |].
  cbn [map]. rewrite concat_empty_cons, codeUnits_app, IH. reflexivity.
Qed.

Lemma spells_length (s : list N) (b : Buffer) :
  Props.spells s b -> List.length s = (2 * List.length b)%nat.
Proof.
  induction 1 as [| c1 c2 s x b _ _ _ IH]; [reflexivity |].
  cbn [List.length]. lia.
Qed.

Lemma unhex_small (c : N) (h : Z) : unhex c = Some h -> (c < 256)%N.
Proof.
  unfold unhex.
  destruct ((48 <=? c) && (c <=? 57))%N eqn:E1.
  { apply andb_true_iff in E1. destruct E1 as [_ H2].
    apply N.leb_le in H2. intros _. lia. }
  destruct ((65 <=? c) && (c <=? 70))%N eqn:E2.
  { apply andb_true_iff in E2. destruct E2 as [_ H2].
    apply N.leb_le in H2. intros _. lia. }
  destruct ((97 <=? c) && (c <=? 102))%N eqn:E3; [| discriminate].
  apply andb_true_iff in E3. destruct E3 as [_ H2].
  apply N.leb_le in H2. intros _. lia.
Qed.

(** A hexadecimal digit is its own low byte. *)
Lemma unhex_lowByte (c : N) (h : Z) :
  unhex c = Some h -> unhex (lowByte c) = Some h.
Proof.
  intros H. unfold lowByte.
  rewrite N.mod_small by (apply (unhex_small c h H)). exact H.
Qed.

Lemma fromHex_spells_app (s rest : list N) (b : Buffer) :
  Props.spells s b -> fromHex (s ++ rest) = b ++ fromHex rest.
Proof.
  induction 1 as [| c1 c2 s x b H1 H2 _ IH]; [reflexivity |].
  cbn [app fromHex].
  rewrite (unhex_lowByte _ _ H1), (unhex_lowByte _ _ H2), IH. f_equal.
  rewrite <- (toByte_byteZ x) at 3. f_equal.
  pose proof (Z.div_mod (byteZ x) 16 ltac:(lia)). lia.
Qed.

Lemma even_not_odd (n : nat) : Nat.even n = true -> Nat.odd n = false.
Proof. intros H. unfold Nat.odd. rewrite H. reflexivity. Qed.

Lemma inputToBuffer_spelled (s : list N) (b : Buffer) :
  Props.spells (stripSpaces s) b -> inputToBuffer (InString s) = Return b.
Proof.
  intros H. unfold inputToBuffer.
  rewrite odd_length_test, (spells_length _ _ H).
  rewrite even_not_odd
    by (apply Nat.even_spec; exists (List.length b); reflexivity).
  rewrite <- (app_nil_r (stripSpaces s)), (fromHex_spells_app _ [] b H).
  cbn [fromHex]. rewrite app_nil_r. reflexivity.
Qed.

(** The call depends on its input through the normalized buffer only. *)
Lemma decode_of_buffer (now : string) (i : input) (b : Buffer) :
  inputToBuffer i = Return b ->
  decodeModbusMessage now i = decodeModbusMessage now (InBuffer b).
Proof.
  intros H. unfold decodeModbusMessage. rewrite H. reflexivity.
Qed.

Lemma fromArray_bytes (b : Buffer) : fromArray (map byteZ b) = b.
Proof.
  unfold fromArray. rewrite map_map.
  rewrite (map_ext _ (fun x => x) toByte_byteZ). apply map_id.
Qed.

Lemma decode_raw_text (now : string) (b : Buffer) :
  decodeModbusMessage now (InString (codeUnits (toHexUpper b)))
  = decodeModbusMessage now (InBuffer b).
Proof.
  apply decode_of_buffer, inputToBuffer_spelled.
  rewrite codeUnits_toHexUpper, stripSpaces_hexUnits.
  apply hexUnits_spells.
Qed.

End EncodingFacts.

(** X3: the three encodings of the same bytes decode to the same outcome: a
    text that, once its white space is stripped, spells the buffer in
    hexadecimal digits of either case; the upper-case text the decoder
    itself writes into [raw_data]; and the array of the byte values. *)
Theorem encodings_decode_alike :
  forall (now : string) (b : NodeBuffer.Buffer),
    (forall s : list N,
       Props.spells (ModbusDecoder.stripSpaces s) b ->
       ModbusDecoder.decodeModbusMessage now (ModbusDecoder.InString s)
       = ModbusDecoder.decodeModbusMessage now (ModbusDecoder.InBuffer b))
    /\ ModbusDecoder.decodeModbusMessage now
         (ModbusDecoder.InString (Js.codeUnits (NodeBuffer.toHexUpper b)))
       = ModbusDecoder.decodeModbusMessage now (ModbusDecoder.InBuffer b)
    /\ ModbusDecoder.decodeModbusMessage now
         (ModbusDecoder.InArray (map NodeBuffer.byteZ b))
       = ModbusDecoder.decodeModbusMessage now (ModbusDecoder.InBuffer b).
Proof.
  intros now b. split; [| split].
  - intros s H. apply decode_of_buffer, inputToBuffer_spelled, H.
  - apply decode_raw_text.
  - apply decode_of_buffer. cbn [ModbusDecoder.inputToBuffer].
    rewrite fromArray_bytes. reflexivity.
Qed.

(** The exception response written with spaces and digits of both cases. *)
Lemma encodings_decode_alike_witness :
  ModbusDecoder.decodeModbusMessage "2024-01-15T10:30:00.000Z"
    (ModbusDecoder.InString (Js.codeUnits "3f 83 02 A1 3D"))
  = ModbusDecoder.decodeModbusMessage "2024-01-15T10:30:00.000Z"
      (ModbusDecoder.InBuffer [x3f; x83; x02; xa1; x3d]).
Proof.
  apply (proj1 (encodings_decode_alike "2024-01-15T10:30:00.000Z"
                  [x3f; x83; x02; xa1; x3d])).
  repeat constructor.
Defined.

(** X4: the field [raw_data] of a decode result is a round trip: handed back
    to the decoder as a text, at the same time, it decodes to the same
    result. *)
Theorem raw_data_decodes_to_same_result :
  forall (now : string) (i : ModbusDecoder.input) (v : Js.value)
         (raw : string),
    ModbusDecoder.decodeModbusMessage now i = Js.Return v ->
    Js.get (Js.spread v) "raw_data" = Some (Js.Str raw) ->
    ModbusDecoder.decodeModbusMessage now
      (ModbusDecoder.InString (Js.codeUnits raw)) = Js.Return v.
Proof.
  intros now i v raw Hdec Hraw.
  destruct (decode_returns now i v Hdec)
    as (buffer & Hin & _ & _ & registers & error & Hv).
  subst v. cbn in Hraw. inversion Hraw. subst raw.
  rewrite (decode_raw_text now buffer).
  rewrite <- (decode_of_buffer now i buffer Hin). exact Hdec.
Qed.

(** The exception response is an instance. *)
Lemma raw_data_decodes_to_same_result_witness :
  ModbusDecoder.decodeModbusMessage "2024-01-15T10:30:00.000Z"
    (ModbusDecoder.InString (Js.codeUnits "3F8302A13D"))
  = Js.Return
      (Spec.frame "2024-01-15T10:30:00.000Z" 63 131 "3F8302A13D" []
         (Some (Spec.exceptionError 2))).
Proof.
  exact (raw_data_decodes_to_same_result "2024-01-15T10:30:00.000Z"
           (ModbusDecoder.InBuffer [x3f; x83; x02; xa1; x3d])
           (Spec.frame "2024-01-15T10:30:00.000Z" 63 131 "3F8302A13D" []
              (Some (Spec.exceptionError 2)))
           "3F8302A13D" eq_refl eq_refl).
Defined.

Section BadPairs.
Import NodeBuffer.


End BadPairs.



(** A character outside the digits whose low byte is a digit counts as that
    digit: [U+0130 U+0131] is read as the byte 01. *)
Example low_byte_digits_are_decoded :
  ModbusDecoder.inputToBuffer
    (ModbusDecoder.InString [51; 102; 304; 305; 48; 49]%N)
  = Js.Return [x3f; x01; x01].
Proof. reflexivity. Qed.

(** ** Function codes without a decoder *)

Section OtherCodes.
Import Js NodeBuffer ModbusDecoder.

Lemma getFunctionName_unknown (code : Z) :
  code <> 3 -> code <> 6 -> code <> 131 ->
  getFunctionName code = ("Unknown (" ++ decimal code ++ ")")%string.
Proof.
  intros H3 H6 H131. unfold getFunctionName, functions. cbn [lookup].
  destruct (Z.eqb_spec 3 code); [lia |].
  destruct (Z.eqb_spec 6 code); [lia |].
  destruct (Z.eqb_spec 131 code); [lia |].
  reflexivity.
Qed.

End OtherCodes.

(** X6: a frame that passes the guards and whose function code is none of
    3, 6 and 131 is not a failure: it decodes to a result with the function
    name "Unknown (<code>)", an empty registers map and no error. *)
Theorem other_function_codes_decode_empty :
  forall (now : string) (i : ModbusDecoder.input) (buffer : NodeBuffer.Buffer),
    ModbusDecoder.inputToBuffer i = Js.Return buffer ->
    4 <= NodeBuffer.len buffer ->
    ModbusDecoder.verifyCRC buffer = Js.Return true ->
    NodeBuffer.byteZ (nth 1 buffer x00) <> 3 ->
    NodeBuffer.byteZ (nth 1 buffer x00) <> 6 ->
    NodeBuffer.byteZ (nth 1 buffer x00) <> 131 ->
    ModbusDecoder.decodeModbusMessage now i
    = Js.Return
        (Js.Obj
           [ ("slave_address", Js.Int (NodeBuffer.byteZ (nth 0 buffer x00)));
             ("function_code", Js.Int (NodeBuffer.byteZ (nth 1 buffer x00)));
             ("function_name",
              Js.Str ("Unknown ("
                      ++ Js.decimal (NodeBuffer.byteZ (nth 1 buffer x00))
                      ++ ")"));
             ("raw_data", Js.Str (NodeBuffer.toHexUpper buffer));
             ("timestamp", Js.Str now);
             ("registers", Js.Obj []) ]).
Proof.
  intros now i buffer Hin Hlen Hcrc H3 H6 H131.
  destruct (long_buffer buffer Hlen) as (b0 & b1 & b2 & b3 & rest & ->).
  cbn [nth] in *.
  rewrite (decode_dispatch now i b0 b1 b2 b3 rest Hin Hcrc).
  destruct (Z.eqb_spec (NodeBuffer.byteZ b1) 3); [contradiction |].
  destruct (Z.eqb_spec (NodeBuffer.byteZ b1) 6); [contradiction |].
  destruct (Z.eqb_spec (NodeBuffer.byteZ b1) 131); [contradiction |].
  unfold Spec.frame. rewrite getFunctionName_unknown by assumption.
  reflexivity.
Qed.

(** A frame of function code 0x10. *)
Lemma other_function_codes_decode_empty_witness :
  ModbusDecoder.decodeModbusMessage "2024-01-15T10:30:00.000Z"
    (ModbusDecoder.InBuffer [x3f; x10; x00; x10; x00; x01; x04; xd2])
  = Js.Return
      (Js.Obj
         [ ("slave_address", Js.Int 63);
           ("function_code", Js.Int 16);
           ("function_name", Js.Str "Unknown (16)");
           ("raw_data", Js.Str "3F100010000104D2");
           ("timestamp", Js.Str "2024-01-15T10:30:00.000Z");
           ("registers", Js.Obj []) ]).
Proof.
  refine (other_function_codes_decode_empty "2024-01-15T10:30:00.000Z"
            (ModbusDecoder.InBuffer [x3f; x10; x00; x10; x00; x01; x04; xd2])
            [x3f; x10; x00; x10; x00; x01; x04; xd2]
            eq_refl _ eq_refl _ _ _);
    vm_compute; discriminate.
Defined.

(** ** The entries of a read response *)

Section EntryFacts.
Import Js NodeBuffer ModbusDecoder.

Lemma registerKeys_prefix_NoDup (n : nat) :
  (n <= 128)%nat -> NoDup (map Spec.registerKey (seq 0 n)).
Proof.
  intros Hn. pose proof registerKeys_NoDup as H.
  replace 128%nat with (n + (128 - n))%nat in H by lia.
  rewrite seq_app, map_app in H. apply NoDup_app_remove_r in H. exact H.
Qed.

Lemma registerCount_bounds (byteCount : Z) :
  0 <= byteCount < 256 ->
  0 <= Spec.registerCount byteCount <= 128
  /\ Spec.registerCount byteCount <= byteCount.
Proof.
  intros H. unfold Spec.registerCount.
  pose proof (Z.div_mod (byteCount + 1) 2 ltac:(lia)).
  pose proof (Z.mod_pos_bound (byteCount + 1) 2 ltac:(lia)). lia.
Qed.

End EntryFacts.

(** X7: a read response that passes the guards and holds the registers it
    announces decodes to one entry for each of the [ceil(byte_count / 2)]
    registers the loop walks, in the order of the frame and under
    pairwise different keys, so that no entry overwrites another: entry
    [k] is that of the address [1 + k] with the big-endian value at offset
    [3 + 2 * k].  With an odd byte count the last register takes its low
    byte from beyond the announced bytes. *)
Theorem read_response_has_one_entry_per_register :
  forall (now : string) (i : ModbusDecoder.input) (buffer : NodeBuffer.Buffer),
    ModbusDecoder.inputToBuffer i = Js.Return buffer ->
    4 <= NodeBuffer.len buffer ->
    ModbusDecoder.verifyCRC buffer = Js.Return true ->
    NodeBuffer.byteZ (nth 1 buffer x00) = 0x03 ->
    3 + 2 * ((NodeBuffer.byteZ (nth 2 buffer x00) + 1) / 2)
      <= NodeBuffer.len buffer ->
    exists registers,
      ModbusDecoder.decodeModbusMessage now i
      = Js.Return
          (Spec.frame now (NodeBuffer.byteZ (nth 0 buffer x00)) 0x03
             (NodeBuffer.toHexUpper buffer) registers None)
      /\ registers
         = map (fun k =>
                  ModbusDecoder.readEntry (0x0001 + Z.of_nat k)
                    (Spec.be16 buffer (3 + 2 * k)))
             (seq 0 (Z.to_nat ((NodeBuffer.byteZ (nth 2 buffer x00) + 1) / 2)))
      /\ Z.of_nat (List.length registers)
         = (NodeBuffer.byteZ (nth 2 buffer x00) + 1) / 2
      /\ NoDup (Js.keys registers).
Proof.
  intros now i buffer Hin Hlen Hcrc Hfc Hfit.
  pose proof (byteZ_range (nth 2 buffer x00)) as Hb.
  pose proof (registerCount_bounds _ Hb) as [Hrc _].
  unfold Spec.registerCount in Hrc.
  eexists. split; [apply (read_response_registers now i buffer); assumption |].
  split; [reflexivity |]. split.
  - unfold Spec.registerEntries, Spec.registerCount.
    rewrite length_map, length_seq. lia.
  - rewrite keys_registerEntries. apply registerKeys_prefix_NoDup.
    unfold Spec.registerCount. lia.
Qed.

(** A read response of 5 register bytes: three registers are read, the
    third from the last announced byte and the first byte of the checksum. *)
Lemma read_response_has_one_entry_per_register_witness :
  exists registers,
    ModbusDecoder.decodeModbusMessage "2024-01-15T10:30:00.000Z"
      (ModbusDecoder.InBuffer
         [x3f; x03; x05; x12; x34; x56; x78; x9a; xc4; x42])
    = Js.Return
        (Spec.frame "2024-01-15T10:30:00.000Z" 63 3 "3F0305123456789AC442"
           registers None)
    /\ registers
       = [ ModbusDecoder.readEntry 1 0x1234;
           ModbusDecoder.readEntry 2 0x5678;
           ModbusDecoder.readEntry 3 0x9ac4 ].
Proof.
  destruct (read_response_has_one_entry_per_register
              "2024-01-15T10:30:00.000Z"
              (ModbusDecoder.InBuffer
                 [x3f; x03; x05; x12; x34; x56; x78; x9a; xc4; x42])
              [x3f; x03; x05; x12; x34; x56; x78; x9a; xc4; x42]
              eq_refl ltac:(vm_compute; discriminate) eq_refl eq_refl
              ltac:(vm_compute; discriminate))
    as (registers & Hdec & Hregs & _).
  exists registers. split; [exact Hdec | exact Hregs].
Defined.

(** X8: whatever the address and the raw value, the entry of a register in
    a read response carries the raw value under [raw_value] and the
    address under [address]; for an address of the table it goes under the
    name of the descriptor and its [unit], [description] and [read_only]
    are those of the descriptor, also when the decoded value has a
    description of its own; for any other address its [value] is the raw
    value. *)
Theorem read_entry_fields :
  forall registerAddress raw : Z,
    let entry :=
      Js.spread (snd (ModbusDecoder.readEntry registerAddress raw)) in
    Js.get entry "raw_value" = Some (Js.Int raw)
    /\ Js.get entry "address" = Some (Js.Int registerAddress)
    /\ match Js.lookup ModbusDecoder.MODBUS_REGISTERS registerAddress with
       | Some register =>
           fst (ModbusDecoder.readEntry registerAddress raw)
           = ModbusDecoder.name register
           /\ Js.get entry "unit"
              = Some (Js.Str (ModbusDecoder.unit register))
           /\ Js.get entry "description"
              = Some (Js.Str (ModbusDecoder.description register))
           /\ Js.get entry "read_only"
              = Some (Js.Bool (ModbusDecoder.readOnly register))
       | None =>
           Js.get entry "value" = Some (Js.Int raw)
           /\ Js.get entry "unit" = Some (Js.Str "unknown")
       end.
Proof.
  intros registerAddress raw entry. subst entry.
  destruct (Js.lookup ModbusDecoder.MODBUS_REGISTERS registerAddress)
    as [register |] eqn:E.
  - apply lookup_In in E. cbn [In ModbusDecoder.MODBUS_REGISTERS] in E.
    repeat (destruct E as [E | E];
            [injection E as <- <-; repeat split; reflexivity |]).
    contradiction.
  - unfold ModbusDecoder.readEntry. rewrite E. repeat split; reflexivity.
Qed.

(** ** The simplified output *)

Section SimplifyFacts.
Import Js NodeBuffer ModbusDecoder ErmangizerModbusNode.

Lemma get_in_NoDup (o : object) (k : string) (v : value) :
  NoDup (keys o) -> In (k, v) o -> get o k = Some v.
Proof.
  induction o as [| [k' v'] o IH]; intros Hnd Hin; [contradiction |].
  cbn [keys map fst] in Hnd. inversion Hnd as [| ? ? Hk Hnd']. subst.
  cbn [get]. destruct Hin as [E | Hin].
  - inversion E. subst. rewrite String.eqb_refl. reflexivity.
  - destruct (String.eqb_spec k' k) as [-> | Hne].
    + exfalso. apply Hk. apply (in_map fst) in Hin. exact Hin.
    + apply IH; assumption.
Qed.

Lemma keys_app (o1 o2 : object) : keys (o1 ++ o2) = keys o1 ++ keys o2.
Proof. unfold keys. apply map_app. Qed.

(** The loop over the keys of the registers appends the projection of each
    entry when the keys are new. *)
Lemma fold_project (full : object) :
  forall (rest simplified : object),
    (forall k v, In (k, v) rest -> get full k = Some v) ->
    NoDup (keys rest) ->
    (forall k, In k (keys rest) -> ~ In k (keys simplified)) ->
    fold_left
      (fun simplified key =>
         match get full key with
         | Some reg => set simplified key (project reg)
         | None => simplified
         end)
      (keys rest) simplified
    = simplified ++ map Props.simplifiedEntry rest.
Proof.
  induction rest as [| [k v] rest IH]; intros simplified Hget Hnd Hnew.
  - cbn. rewrite app_nil_r. reflexivity.
  - cbn [keys map fst fold_left].
    rewrite (Hget k v (or_introl eq_refl)).
    rewrite set_fresh by (apply Hnew; left; reflexivity).
    cbn [keys map fst] in Hnd. inversion Hnd as [| ? ? Hk Hnd']. subst.
    fold (keys rest). rewrite IH.
    + rewrite <- app_assoc. reflexivity.
    + intros k' v' Hin. apply Hget. right. exact Hin.
    + exact Hnd'.
    + intros k' Hin. rewrite keys_app. intros Hin'.
      apply in_app_or in Hin'. destruct Hin' as [Hin' | Hin'].
      * apply (Hnew k'); [right; exact Hin | exact Hin'].
      * cbn in Hin'. destruct Hin' as [<- | []]. apply Hk, Hin.
Qed.

Lemma keys_simplified (registers : object) :
  keys (map Props.simplifiedEntry registers) = keys registers.
Proof. unfold keys. rewrite map_map. reflexivity. Qed.

(** The simplified output of a result whose register keys are pairwise
    different and none of [slave], [function], [timestamp], [error]. *)
Lemma simplify_frame (now : string) (slave code : Z) (raw : string)
  (registers : object) (error : option value) :
  NoDup (keys registers) ->
  (forall k, In k (keys registers) ->
             ~ In k ["slave"; "function"; "timestamp"; "error"]) ->
  (forall e, error = Some e -> truthyValue e = true) ->
  simplify (Spec.frame now slave code raw registers error)
  = Some (Obj ([ ("slave", Int slave);
                 ("function", Str (getFunctionName code));
                 ("timestamp", Str now) ]
               ++ map Props.simplifiedEntry registers
               ++ match error with
                  | Some e => [("error", e)]
                  | None => []
                  end)).
Proof.
  intros Hnd Hres Herr. unfold Spec.frame, simplify.
  cbn [app get String.eqb Ascii.eqb Bool.eqb].
  rewrite (fold_project registers registers).
  - destruct error as [e |]; cbn [get app String.eqb Ascii.eqb Bool.eqb].
    + rewrite (Herr e eq_refl). rewrite set_fresh.
      * rewrite <- app_assoc. reflexivity.
      * rewrite keys_app, keys_simplified. intros Hin.
        apply in_app_or in Hin. destruct Hin as [Hin | Hin].
        -- cbn in Hin. repeat (destruct Hin as [Hin | Hin];
                                [discriminate Hin |]). exact Hin.
        -- apply (Hres "error" Hin). do 3 right. left. reflexivity.
    + rewrite app_nil_r. reflexivity.
  - intros k v Hin. apply get_in_NoDup; assumption.
  - exact Hnd.
  - intros k Hin Hin'. apply (Hres k Hin). cbn in Hin' |- *.
    destruct Hin' as [<- | [<- | [<- | []]]]; auto.
Qed.

Lemma registerKeys_not_reserved (k : string) (n : nat) :
  (n <= 128)%nat -> In k (map Spec.registerKey (seq 0 n)) ->
  ~ In k ["slave"; "function"; "timestamp"; "error"].
Proof.
  intros Hn Hin.
  assert (Hall : forallb
                   (fun k => negb (existsb (String.eqb k)
                                     ["slave"; "function"; "timestamp"; "error"]))
                   (map Spec.registerKey (seq 0 128)) = true)
    by (vm_compute; reflexivity).
  rewrite forallb_forall in Hall.
  assert (Hin128 : In k (map Spec.registerKey (seq 0 128))).
  { replace 128%nat with (n + (128 - n))%nat by lia.
    rewrite seq_app, map_app. apply in_or_app. left. exact Hin. }
  specialize (Hall k Hin128). apply negb_true_iff in Hall.
  intros Hres. assert (Hex : existsb (String.eqb k)
                               ["slave"; "function"; "timestamp"; "error"] = true).
  { apply existsb_exists. exists k. split; [exact Hres | apply String.eqb_refl]. }
  rewrite Hex in Hall. discriminate.
Qed.

Lemma writeEntry_keys (registerAddress registerValue : Z) :
  NoDup (keys (writeEntry [] registerAddress registerValue))
  /\ forall k, In k (keys (writeEntry [] registerAddress registerValue)) ->
               ~ In k ["slave"; "function"; "timestamp"; "error"].
Proof.
  unfold writeEntry.
  destruct (lookup MODBUS_REGISTERS registerAddress) as [register |] eqn:E.
  - cbn [set keys map fst]. split.
    + constructor; [intros [] | constructor].
    + intros k [<- | []].
      apply lookup_In in E. cbn [In MODBUS_REGISTERS] in E.
      repeat (destruct E as [E | E];
              [injection E as <- <-; cbn; intros H;
               repeat (destruct H as [H | H]; [discriminate H |]); exact H |]).
      contradiction.
  - split; [constructor | intros k []].
Qed.

(** What a call that returns returns: a frame whose registers map has
    pairwise different keys, none of them a field of the simplified
    output, and whose error, if any, is an object. *)
Lemma decode_returns_frame (now : string) (i : input) (v : value) :
  decodeModbusMessage now i = Return v ->
  exists slave code raw registers error,
    v = Spec.frame now slave code raw registers error
    /\ NoDup (keys registers)
    /\ (forall k, In k (keys registers) ->
                  ~ In k ["slave"; "function"; "timestamp"; "error"])
    /\ (forall e, error = Some e -> truthyValue e = true).
Proof.
  intros Hdec.
  destruct (decode_returns now i v Hdec) as (buffer & Hin & Hlen & Hcrc & _).
  destruct (decode_valid_outcome now i buffer Hin Hlen Hcrc) as [_ Hbad].
  assert (Hyes : Spec.readsInBounds buffer).
  { destruct (readsInBounds_dec buffer) as [H | H]; [exact H |].
    destruct (Hbad H) as (offset & Ho). rewrite Ho in Hdec. discriminate. }
  destruct (long_buffer buffer Hlen) as (b0 & b1 & b2 & b3 & rest & ->).
  cbn [Spec.readsInBounds] in Hyes. destruct Hyes as [H3 H6].
  pose proof (byteZ_range b2) as Hb2.
  destruct (Z.eq_dec (byteZ b1) 3) as [E3 | N3].
  { rewrite (read_response_registers now i _ Hin Hlen Hcrc E3 (H3 E3)) in Hdec.
    apply Return_injective in Hdec. subst v.
    pose proof (registerCount_bounds _ Hb2) as [Hrc _].
    do 5 eexists. split; [reflexivity |]. cbn [nth].
    rewrite keys_registerEntries. split; [| split].
    - apply registerKeys_prefix_NoDup. lia.
    - intros k Hk.
      apply (registerKeys_not_reserved k
               (Z.to_nat (Spec.registerCount (byteZ b2)))); [lia | exact Hk].
    - discriminate. }
  rewrite (decode_dispatch now i b0 b1 b2 b3 rest Hin Hcrc) in Hdec.
  destruct (Z.eqb_spec (byteZ b1) 3); [contradiction |].
  destruct (Z.eqb_spec (byteZ b1) 6) as [E6 | N6].
  { rewrite (readUInt16BE_inside _ 2), (readUInt16BE_inside _ 4) in Hdec
      by (specialize (H6 E6); lia).
    cbn [bind] in Hdec. apply Return_injective in Hdec. subst v.
    do 5 eexists. split; [reflexivity |].
    split; [apply writeEntry_keys |]. split; [apply writeEntry_keys |].
    discriminate. }
  destruct (byteZ b1 =? 131); apply Return_injective in Hdec; subst v;
    do 5 eexists; (split; [reflexivity |]);
    (split; [constructor |]); (split; [intros k [] |]).
  - intros e He. inversion He. reflexivity.
  - discriminate.
Qed.

End SimplifyFacts.

(** X10: the simplified output of every decode result is defined, and it is
    the object of [slave], [function] and [timestamp], then one field for
    each register, in the order of the registers map, holding the [value]
    of the entry when it has one and the whole entry otherwise, then
    [error] when the result has one.  The function code and the raw data
    are not part of it. *)
Theorem simplified_output_of_a_result :
  forall (now : string) (i : ModbusDecoder.input) (v : Js.value),
    ModbusDecoder.decodeModbusMessage now i = Js.Return v ->
    exists slave code raw registers error,
      v = Spec.frame now slave code raw registers error
      /\ ErmangizerModbusNode.simplify v
         = Some (Js.Obj
                   ([ ("slave", Js.Int slave);
                      ("function", Js.Str (ModbusDecoder.getFunctionName code));
                      ("timestamp", Js.Str now) ]
                    ++ map Props.simplifiedEntry registers
                    ++ match error with
                       | Some e => [("error", e)]
                       | None => []
                       end)).
Proof.
  intros now i v Hdec.
  destruct (decode_returns_frame now i v Hdec)
    as (slave & code & raw & registers & error & Hv & Hnd & Hres & Herr).
  exists slave, code, raw, registers, error. split; [exact Hv |].
  rewrite Hv. apply simplify_frame; assumption.
Qed.

(** The exception response: [slave], [function], [timestamp], [error]. *)
Lemma simplified_output_of_a_result_witness :
  ErmangizerModbusNode.simplify
    (Spec.frame "2024-01-15T10:30:00.000Z" 63 131 "3F8302A13D" []
       (Some (Spec.exceptionError 2)))
  = Some (Js.Obj
            [ ("slave", Js.Int 63);
              ("function", Js.Str "Error Response");
              ("timestamp", Js.Str "2024-01-15T10:30:00.000Z");
              ("error", Spec.exceptionError 2) ]).
Proof.
  destruct (simplified_output_of_a_result "2024-01-15T10:30:00.000Z"
              (ModbusDecoder.InBuffer [x3f; x83; x02; xa1; x3d])
              (Spec.frame "2024-01-15T10:30:00.000Z" 63 131 "3F8302A13D" []
                 (Some (Spec.exceptionError 2)))
              eq_refl)
    as (slave & code & raw & registers & error & Hv & Hs).
  rewrite Hs. unfold Spec.frame in Hv. inversion Hv. reflexivity.
Defined.

(** X11: in the simplified output the registers 0x0006, 0x0007 and 0x1001,
    whose decoded value has no field [value], stay whole entries; every
    other register, known or unknown, is reduced to its [value], a number
    or a text. *)
Theorem simplified_register_is_value_or_whole_entry :
  forall registerAddress raw : Z,
    let entry := snd (ModbusDecoder.readEntry registerAddress raw) in
    if Props.keptWhole registerAddress
    then Js.get (Js.spread entry) "value" = None
         /\ ErmangizerModbusNode.project entry = entry
    else exists x,
           Js.get (Js.spread entry) "value" = Some x
           /\ ErmangizerModbusNode.project entry = x
           /\ match x with
              | Js.Obj _ => False
              | _ => True
              end.
Proof.
  intros registerAddress raw entry. subst entry.
  destruct (Js.lookup ModbusDecoder.MODBUS_REGISTERS registerAddress)
    as [register |] eqn:E.
  - apply lookup_In in E. cbn [In ModbusDecoder.MODBUS_REGISTERS] in E.
    repeat (destruct E as [E | E];
            [injection E as <- <-;
             lazy [Props.keptWhole Z.eqb Pos.eqb orb];
             first [ split; reflexivity
                   | eexists; split; [reflexivity |];
                     split; [reflexivity | exact I] ] |]).
    contradiction.
  - assert (Hk : Props.keptWhole registerAddress = false).
    { unfold Props.keptWhole.
      destruct (Z.eqb_spec registerAddress 6) as [-> | _]; [discriminate E |].
      destruct (Z.eqb_spec registerAddress 7) as [-> | _]; [discriminate E |].
      destruct (Z.eqb_spec registerAddress 4097) as [-> | _];
        [discriminate E | reflexivity]. }
    rewrite Hk. unfold ModbusDecoder.readEntry. rewrite E.
    eexists. split; [reflexivity |]. split; [reflexivity | exact I].
Qed.

(** ** The handler of the node *)

Section HandlerFacts.
Import Js NodeBuffer ModbusDecoder ErmangizerModbusNode.

Lemma autoDetect_outputFormat (n : node) (inputData : input) :
  outputFormat (autoDetect n inputData) = outputFormat n.
Proof.
  unfold autoDetect. destruct (String.eqb (inputType n) "auto");
    [| reflexivity].
  destruct inputData as [b | s | a |]; try reflexivity.
  destruct (isHexText s); reflexivity.
Qed.

Lemma autoDetect_set (n : node) (inputData : input) :
  inputType n <> "auto" -> autoDetect n inputData = n.
Proof.
  intros H. unfold autoDetect.
  destruct (String.eqb_spec (inputType n) "auto"); [contradiction |].
  reflexivity.
Qed.

Lemma autoDetect_auto (n : node) (inputData : input) :
  inputType n = "auto" ->
  autoDetect n inputData
  = match Props.detected inputData with
    | Some kind => mkNode kind (outputFormat n)
    | None => n
    end.
Proof.
  intros H. unfold autoDetect, Props.detected. rewrite H. cbn [String.eqb].
  change (String.eqb "auto" "auto") with true. cbv iota.
  destruct inputData as [b | s | a |]; try reflexivity.
  destruct (isHexText s); reflexivity.
Qed.

Lemma detected_not_auto (inputData : input) (kind : string) :
  Props.detected inputData = Some kind -> kind <> "auto".
Proof.
  unfold Props.detected. destruct inputData as [b | s | a |];
    try (intros H; inversion H; discriminate).
  destruct (isHexText s); intros H; inversion H. discriminate.
Qed.

(** The handler always ends, with the node as the detection leaves it. *)
Lemma onInput_defined (now : string) (n : node) (inputData : input) :
  exists events,
    onInput now n inputData = Some (autoDetect n inputData, events).
Proof.
  unfold onInput.
  destruct (decodeModbusMessage now inputData) as [v | e |] eqn:Hdec.
  - destruct (String.eqb _ "simplified"); [| eexists; reflexivity].
    destruct (decode_returns_frame now inputData v Hdec)
      as (slave & code & raw & registers & error & Hv & Hnd & Hres & Herr).
    rewrite Hv, (simplify_frame now slave code raw registers error Hnd Hres Herr).
    eexists. reflexivity.
  - eexists. reflexivity.
  - exfalso. exact (decode_terminates now inputData Hdec).
Qed.

End HandlerFacts.

(** X12: whatever the message, the handler ends after one [send] followed
    by one [done].  When the decoder returns, the message carries the
    result (or its simplified output when the node is set to
    ['simplified']) with the input kept in [originalPayload], and [done]
    gets no error; when the decoder throws, the message carries the report
    of the failure with the input kept in [original_data] and the thrown
    value in [msg.error], and [done] gets the thrown value. *)
Theorem handler_sends_one_message :
  forall (now : string) (n : ErmangizerModbusNode.node)
         (inputData : ModbusDecoder.input),
    exists msg err,
      ErmangizerModbusNode.onInput now n inputData
      = Some (ErmangizerModbusNode.autoDetect n inputData,
              [ErmangizerModbusNode.Send msg; ErmangizerModbusNode.Done err])
      /\ match ModbusDecoder.decodeModbusMessage now inputData with
         | Js.Return v =>
             err = None
             /\ exists out,
                  msg = ErmangizerModbusNode.mkMessage
                          (ErmangizerModbusNode.Decoded out)
                          (Some inputData) None
                  /\ if String.eqb (ErmangizerModbusNode.outputFormat n)
                          "simplified"
                     then ErmangizerModbusNode.simplify v = Some out
                     else out = v
         | Js.Throw e =>
             err = Some e
             /\ msg = ErmangizerModbusNode.mkMessage
                        (ErmangizerModbusNode.Failed e
                           (ErmangizerModbusNode.inputType
                              (ErmangizerModbusNode.autoDetect n inputData))
                           inputData)
                        None (Some e)
         | Js.OutOfFuel => False
         end.
Proof.
  intros now n inputData.
  destruct (onInput_defined now n inputData) as [events Hev].
  unfold ErmangizerModbusNode.onInput in Hev |- *.
  rewrite autoDetect_outputFormat in Hev |- *.
  destruct (ModbusDecoder.decodeModbusMessage now inputData) as [v | e |].
  - destruct (String.eqb (ErmangizerModbusNode.outputFormat n) "simplified").
    + destruct (ErmangizerModbusNode.simplify v) as [out |];
        [| discriminate Hev].
      do 2 eexists. split; [reflexivity |]. split; [reflexivity |].
      exists out. split; reflexivity.
    + do 2 eexists. split; [reflexivity |]. split; [reflexivity |].
      exists v. split; reflexivity.
  - do 2 eexists. split; [reflexivity |]. split; reflexivity.
  - discriminate Hev.
Qed.

(** X13: the output format of a node never changes, and its input type
    changes at most once: a node whose input type is not ['auto'] keeps its
    settings through any sequence of messages, and a node set to ['auto']
    takes the type detected on a message (['buffer'], ['hexstring'] or
    ['array']) or stays as it is when nothing is detected. *)
Theorem input_type_is_detected_once :
  (forall (n : ErmangizerModbusNode.node)
          (msgs : list (string * ModbusDecoder.input)),
     exists n',
       ErmangizerModbusNode.after n msgs = Some n'
       /\ ErmangizerModbusNode.outputFormat n'
          = ErmangizerModbusNode.outputFormat n
       /\ (ErmangizerModbusNode.inputType n <> "auto" -> n' = n))
  /\ (forall (now : string) (n : ErmangizerModbusNode.node)
             (inputData : ModbusDecoder.input),
        ErmangizerModbusNode.inputType n = "auto" ->
        exists events,
          ErmangizerModbusNode.onInput now n inputData
          = Some (match Props.detected inputData with
                  | Some kind =>
                      ErmangizerModbusNode.mkNode kind
                        (ErmangizerModbusNode.outputFormat n)
                  | None => n
                  end, events)
          /\ Props.detected inputData <> Some "auto").
Proof.
  split.
  - intros n msgs. revert n.
    induction msgs as [| [now inputData] msgs IH]; intros n.
    + exists n. repeat split; reflexivity.
    + cbn [ErmangizerModbusNode.after].
      destruct (onInput_defined now n inputData) as [events Hev].
      rewrite Hev.
      destruct (IH (ErmangizerModbusNode.autoDetect n inputData))
        as (n' & Hafter & Hfmt & Hset).
      exists n'. split; [exact Hafter |]. split.
      * rewrite Hfmt. apply autoDetect_outputFormat.
      * intros Hn. rewrite (autoDetect_set n inputData Hn) in Hset.
        apply Hset, Hn.
  - intros now n inputData Hauto.
    destruct (onInput_defined now n inputData) as [events Hev].
    rewrite (autoDetect_auto n inputData Hauto) in Hev.
    exists events. split; [exact Hev |].
    intros H. exact (detected_not_auto inputData "auto" H eq_refl).
Qed.

(** A node set to ['auto'] that gets a buffer. *)
Lemma input_type_is_detected_once_witness :
  exists events,
    ErmangizerModbusNode.onInput "2024-01-15T10:30:00.000Z"
      (ErmangizerModbusNode.createNode None None)
      (ModbusDecoder.InBuffer [x3f; x83; x02; xa1; x3d])
    = Some (ErmangizerModbusNode.mkNode "buffer" "detailed", events).
Proof.
  destruct (proj2 input_type_is_detected_once "2024-01-15T10:30:00.000Z"
              (ErmangizerModbusNode.createNode None None)
              (ModbusDecoder.InBuffer [x3f; x83; x02; xa1; x3d]) eq_refl)
    as (events & Hev & _).
  exists events. exact Hev.
Defined.

(** X14: the [input_type] of a failure report is the type stored in the
    node, not the type of the failing input: once a node set to ['auto']
    has detected a type on one message, the report of every later failure
    names that type, whatever the input that failed. *)
Theorem failure_report_names_the_stored_type :
  forall (now1 now2 : string) (n : ErmangizerModbusNode.node)
         (first later : ModbusDecoder.input) (kind : string) (e : Js.exn),
    ErmangizerModbusNode.inputType n = "auto" ->
    Props.detected first = Some kind ->
    ModbusDecoder.decodeModbusMessage now2 later = Js.Throw e ->
    exists n1 events1,
      ErmangizerModbusNode.onInput now1 n first = Some (n1, events1)
      /\ ErmangizerModbusNode.onInput now2 n1 later
         = Some (n1,
                 [ ErmangizerModbusNode.Send
                     (ErmangizerModbusNode.mkMessage
                        (ErmangizerModbusNode.Failed e kind later)
                        None (Some e));
                   ErmangizerModbusNode.Done (Some e) ]).
Proof.
  intros now1 now2 n first later kind e Hauto Hkind Hthrow.
  destruct (onInput_defined now1 n first) as [events1 Hev1].
  rewrite (autoDetect_auto n first Hauto), Hkind in Hev1.
  eexists. exists events1. split; [exact Hev1 |].
  unfold ErmangizerModbusNode.onInput. rewrite Hthrow.
  rewrite autoDetect_set
    by (cbn [ErmangizerModbusNode.inputType];
        apply (detected_not_auto first kind Hkind)).
  reflexivity.
Qed.

(** A buffer first, then a text of odd length: the report says
    ['buffer']. *)
Lemma failure_report_names_the_stored_type_witness :
  exists n1 events1,
    ErmangizerModbusNode.onInput "2024-01-15T10:30:00.000Z"
      (ErmangizerModbusNode.createNode None None)
      (ModbusDecoder.InBuffer [x3f; x83; x02; xa1; x3d])
    = Some (n1, events1)
    /\ ErmangizerModbusNode.onInput "2024-01-15T10:31:00.000Z" n1
         (ModbusDecoder.InString (Js.codeUnits "3f030"))
       = Some (n1,
               [ ErmangizerModbusNode.Send
                   (ErmangizerModbusNode.mkMessage
                      (ErmangizerModbusNode.Failed
                         (Js.Error "Invalid hex string length") "buffer"
                         (ModbusDecoder.InString (Js.codeUnits "3f030")))
                      None (Some (Js.Error "Invalid hex string length")));
                 ErmangizerModbusNode.Done
                   (Some (Js.Error "Invalid hex string length")) ]).
Proof.
  exact (failure_report_names_the_stored_type
           "2024-01-15T10:30:00.000Z" "2024-01-15T10:31:00.000Z"
           (ErmangizerModbusNode.createNode None None)
           (ModbusDecoder.InBuffer [x3f; x83; x02; xa1; x3d])
           (ModbusDecoder.InString (Js.codeUnits "3f030"))
           "buffer" (Js.Error "Invalid hex string length")
           eq_refl eq_refl eq_refl).
Defined.

(** ** Texts the detection takes for hexadecimal *)

Section HexTextFacts.
Import Js NodeBuffer ModbusDecoder ErmangizerModbusNode.

Lemma unhex_range (c : N) (h : Z) : unhex c = Some h -> 0 <= h < 16.
Proof.
  unfold unhex.
  destruct ((48 <=? c) && (c <=? 57))%N eqn:E1.
  { apply andb_true_iff in E1. destruct E1 as [H1 H2].
    apply N.leb_le in H1, H2. intros H. inversion H. lia. }
  destruct ((65 <=? c) && (c <=? 70))%N eqn:E2.
  { apply andb_true_iff in E2. destruct E2 as [H1 H2].
    apply N.leb_le in H1, H2. intros H. inversion H. lia. }
  destruct ((97 <=? c) && (c <=? 102))%N eqn:E3; [| discriminate].
  apply andb_true_iff in E3. destruct E3 as [H1 H2].
  apply N.leb_le in H1, H2. intros H. inversion H. lia.
Qed.

Lemma digits_spell (n : nat) :
  forall s : list N,
    List.length s = (2 * n)%nat ->
    Forall (fun c => exists h, unhex c = Some h) s ->
    exists b, Props.spells s b.
Proof.
  induction n as [| n IH]; intros s Hlen Hall.
  - destruct s; [| discriminate Hlen]. exists []. constructor.
  - destruct s as [| c1 [| c2 s]]; try (cbn in Hlen; lia).
    inversion Hall as [| ? ? [h Hh] Hall1]. subst.
    inversion Hall1 as [| ? ? [l Hl] Hall2]. subst.
    destruct (IH s ltac:(cbn in Hlen; lia) Hall2) as [b Hb].
    pose proof (unhex_range c1 h Hh) as Rh.
    pose proof (unhex_range c2 l Hl) as Rl.
    exists (toByte (h * 16 + l) :: b).
    assert (Hz : byteZ (toByte (h * 16 + l)) = h * 16 + l)
      by (rewrite byteZ_toByte; apply Z.mod_small; lia).
    constructor; [| | exact Hb]; rewrite Hz.
    + rewrite Hh. f_equal. apply Z.div_unique with (r := l); lia.
    + rewrite Hl. f_equal. apply Z.mod_unique with (q := h); lia.
Qed.

Lemma isHexText_digits (s : list N) :
  isHexText s = true ->
  Forall (fun c => exists h, unhex c = Some h) (stripSpaces s).
Proof.
  intros H.
  assert (Hall : forallb (fun c => match unhex c with
                                   | Some _ => true
                                   | None => isSpace c
                                   end) s = true).
  { destruct s; [discriminate H | exact H]. }
  clear H. rewrite forallb_forall in Hall.
  apply Forall_forall. intros c Hc. unfold stripSpaces in Hc.
  apply filter_In in Hc. destruct Hc as [Hin Hns].
  specialize (Hall c Hin).
  destruct (unhex c) as [h |]; [exists h; reflexivity |].
  rewrite Hall in Hns. discriminate.
Qed.

End HexTextFacts.

(** X15: a text the detection takes for hexadecimal (digits and white space
    only, not empty) with an even number of digits is normalized without
    loss: to the buffer its digits spell, one byte for every two digits. *)
Theorem detected_hex_text_is_read_in_full :
  forall s : list N,
    ErmangizerModbusNode.isHexText s = true ->
    Nat.even (List.length (ModbusDecoder.stripSpaces s)) = true ->
    exists b,
      ModbusDecoder.inputToBuffer (ModbusDecoder.InString s) = Js.Return b
      /\ Props.spells (ModbusDecoder.stripSpaces s) b
      /\ List.length (ModbusDecoder.stripSpaces s) = (2 * List.length b)%nat.
Proof.
  intros s Hhex Heven.
  apply Nat.even_spec in Heven. destruct Heven as [n Hn].
  destruct (digits_spell n _ Hn (isHexText_digits s Hhex)) as [b Hb].
  exists b. split; [apply inputToBuffer_spelled, Hb |].
  split; [exact Hb | apply spells_length, Hb].
Qed.

(** The request frame of the documentation, written with spaces. *)
Lemma detected_hex_text_is_read_in_full_witness :
  exists b,
    ModbusDecoder.inputToBuffer
      (ModbusDecoder.InString (Js.codeUnits "3f 03 00 01 00 16 91 1a"))
    = Js.Return b
    /\ List.length b = 8%nat.
Proof.
  destruct (detected_hex_text_is_read_in_full
              (Js.codeUnits "3f 03 00 01 00 16 91 1a") eq_refl eq_refl)
    as (b & Hin & _ & Hlen).
  exists b. split; [exact Hin |].
  change (List.length
            (ModbusDecoder.stripSpaces
               (Js.codeUnits "3f 03 00 01 00 16 91 1a"))) with 16%nat in Hlen.
  lia.
Defined.

(** ** The two paths to an entry *)

(** X16: for an address of the table, the entry of a write acknowledgment
    is the entry a read response gives the same address and raw value,
    under the same key, followed by [operation: "write"]: the address taken
    from the frame and the address of the descriptor agree. *)
Theorem write_entry_is_read_entry_with_operation :
  forall (registerAddress raw : Z) (register : ModbusDecoder.ModbusRegister),
    Js.lookup ModbusDecoder.MODBUS_REGISTERS registerAddress = Some register ->
    ModbusDecoder.address register = registerAddress
    /\ ModbusDecoder.writeEntry [] registerAddress raw
       = [ (fst (ModbusDecoder.readEntry registerAddress raw),
            Js.Obj (Js.spread (snd (ModbusDecoder.readEntry registerAddress raw))
                    ++ [("operation", Js.Str "write")])) ].
Proof.
  intros registerAddress raw register E.
  apply lookup_In in E. cbn [In ModbusDecoder.MODBUS_REGISTERS] in E.
  repeat (destruct E as [E | E];
          [injection E as <- <-; split; reflexivity |]).
  contradiction.
Qed.

(** The register 0x1000 written with 250. *)
Lemma write_entry_is_read_entry_with_operation_witness :
  ModbusDecoder.writeEntry [] 0x1000 250
  = [ ("set_pressure",
       Js.Obj [ ("value", Js.Num (5 # 2)); ("raw_value", Js.Num 250);
                ("unit", Js.Str "0.01 BAR");
                ("description", Js.Str "Set pressure value");
                ("address", Js.Num 4096); ("read_only", Js.Bool false);
                ("operation", Js.Str "write") ]) ].
Proof.
  rewrite (proj2 (write_entry_is_read_entry_with_operation 0x1000 250 _
                    eq_refl)).
  reflexivity.
Defined.
